(** * Web3Service: the wallet adapter of src/app/lib/services/web3/web3.service.ts

    A shallow embedding of the Angular service that mirrors an injected
    wallet provider (window.ethereum) as five BehaviorSubjects, together
    with its three actions and its two provider-event handlers.

    Conventions of the embedding.
    - [string | null | undefined] is [option string]; [None] stands for
      both null and undefined, which the code never tells apart.
    - A BehaviorSubject is modelled by its current value ([getValue]);
      [next v] overwrites it.
    - [await] is sequencing: the two or three provider round trips of an
      action run back to back.  Provider events delivered while an action
      is suspended are not interleaved inside the action; they are
      separate operations of a trace.
    - CHAIN_NAME_MAP is a plain object: an identifier that is not one of
      its own keys still finds what the object inherits from
      Object.prototype, and [CHAIN_NAME_MAP[cid]] is modelled so.  The
      switch reads CHAIN_PARAMS only at targets taken from the registry. *)

From Stdlib Require Import ZArith.
From stdpp Require Import base option list strings gmap.

Local Open Scope string_scope.
Local Open Scope list_scope.

(** ** JavaScript values and truthiness *)

(** The primitives that may sit in the [code] slot of a provider error. *)
Inductive jsval : Type :=
  | VUndefined
  | VNull
  | VBool (b : bool)
  | VNum (n : Z)
  | VStr (s : string).

#[global] Instance jsval_eq_dec : EqDecision jsval.
Proof. solve_decision. Defined.

(** A string is truthy unless it is empty. *)
Definition truthy_str (s : string) : bool := negb (String.eqb s "").

Definition truthy (v : jsval) : bool :=
  match v with
  | VUndefined | VNull => false
  | VBool b => b
  | VNum n => negb (n =? 0)%Z
  | VStr s => truthy_str s
  end.

(** [x || null] on an optional string. *)
Definition or_null (x : option string) : option string :=
  match x with
  | Some s => if truthy_str s then Some s else None
  | None => None
  end.

(** [v === w] on primitives. *)
Definition strict_eq (v w : jsval) : bool := bool_decide (v = w).

(** ** The constant tables *)

Definition SUPPORTED_CHAIN_IDS : list string := ["0x1"; "0x5"; "0xaa36a7"; "0x89"].

Definition CHAIN_NAME_MAP : gmap string string :=
  list_to_map
    [ ("0x1", "Ethereum Mainnet");
      ("0x3", "Ropsten");
      ("0x4", "Rinkeby");
      ("0x5", "Goerli");
      ("0xaa36a7", "Sepolia");
      ("0x89", "Polygon") ].

(** The property names every plain object inherits from Object.prototype
    (ECMAScript, Annex B included).  Each of them holds a function, or for
    "__proto__" the prototype object itself, hence a truthy value that is
    not a string. *)
Definition Object_prototype : list string :=
  [ "constructor"; "hasOwnProperty"; "isPrototypeOf"; "propertyIsEnumerable";
    "toLocaleString"; "toString"; "valueOf"; "__proto__";
    "__defineGetter__"; "__defineSetter__";
    "__lookupGetter__"; "__lookupSetter__" ].

(** What [networkName$] can receive: a string, or the member of
    Object.prototype that a lookup in the table came back with. *)
Inductive NameValue : Type :=
  | NameString (s : string)
  | NameInherited (key : string).

#[global] Instance NameValue_eq_dec : EqDecision NameValue.
Proof. solve_decision. Defined.

(** [CHAIN_NAME_MAP[cid]]: an own key first, then the prototype;
    [None] is undefined. *)
Definition CHAIN_NAME_MAP_get (cid : string) : option NameValue :=
  match CHAIN_NAME_MAP !! cid with
  | Some n => Some (NameString n)
  | None =>
      if bool_decide (cid ∈ Object_prototype) then Some (NameInherited cid)
      else None
  end.

Record NativeCurrency : Type := {
  name : string;
  symbol : string;
  decimals : Z
}.

Record ChainParams : Type := {
  cp_chainId : string;
  chainName : string;
  nativeCurrency : NativeCurrency;
  rpcUrls : list string;
  blockExplorerUrls : list string
}.

#[global] Instance NativeCurrency_eq_dec : EqDecision NativeCurrency.
Proof. solve_decision. Defined.

#[global] Instance ChainParams_eq_dec : EqDecision ChainParams.
Proof. solve_decision. Defined.

Definition params_mainnet : ChainParams :=
  {| cp_chainId := "0x1";
     chainName := "Ethereum Mainnet";
     nativeCurrency := {| name := "Ether"; symbol := "ETH"; decimals := 18 |};
     rpcUrls := ["https://mainnet.infura.io/v3/"];
     blockExplorerUrls := ["https://etherscan.io"] |}.

Definition params_goerli : ChainParams :=
  {| cp_chainId := "0x5";
     chainName := "Goerli";
     nativeCurrency := {| name := "Goerli Ether"; symbol := "GOR"; decimals := 18 |};
     rpcUrls := ["https://rpc.ankr.com/eth_goerli"];
     blockExplorerUrls := ["https://goerli.etherscan.io"] |}.

Definition params_sepolia : ChainParams :=
  {| cp_chainId := "0xaa36a7";
     chainName := "Sepolia";
     nativeCurrency := {| name := "Sepolia Ether"; symbol := "SEP"; decimals := 18 |};
     rpcUrls := ["https://rpc.sepolia.org"];
     blockExplorerUrls := ["https://sepolia.etherscan.io"] |}.

Definition params_polygon : ChainParams :=
  {| cp_chainId := "0x89";
     chainName := "Polygon";
     nativeCurrency := {| name := "MATIC"; symbol := "MATIC"; decimals := 18 |};
     rpcUrls := ["https://polygon-rpc.com/"];
     blockExplorerUrls := ["https://polygonscan.com/"] |}.

Definition CHAIN_PARAMS : gmap string ChainParams :=
  list_to_map
    [ ("0x1", params_mainnet);
      ("0x5", params_goerli);
      ("0xaa36a7", params_sepolia);
      ("0x89", params_polygon) ].

(** ** The observable state *)

(** Current values of [address$], [chainId$], [networkName$],
    [isSupportedNetwork$] and [isMetaMaskInstalled$]. *)
Record WalletState : Type := {
  address : option string;
  chainId : option string;
  networkName : option NameValue;
  isSupportedNetwork : bool;
  isMetaMaskInstalled : bool
}.

#[global] Instance WalletState_eq_dec : EqDecision WalletState.
Proof. solve_decision. Defined.

(** The values the five subjects are created with. *)
Definition fresh : WalletState :=
  {| address := None;
     chainId := None;
     networkName := None;
     isSupportedNetwork := true;
     isMetaMaskInstalled := false |}.

Definition set_address (a : option string) (s : WalletState) : WalletState :=
  {| address := a;
     chainId := chainId s;
     networkName := networkName s;
     isSupportedNetwork := isSupportedNetwork s;
     isMetaMaskInstalled := isMetaMaskInstalled s |}.

Definition set_chainId (c : option string) (s : WalletState) : WalletState :=
  {| address := address s;
     chainId := c;
     networkName := networkName s;
     isSupportedNetwork := isSupportedNetwork s;
     isMetaMaskInstalled := isMetaMaskInstalled s |}.

Definition set_networkName (n : option NameValue) (s : WalletState) : WalletState :=
  {| address := address s;
     chainId := chainId s;
     networkName := n;
     isSupportedNetwork := isSupportedNetwork s;
     isMetaMaskInstalled := isMetaMaskInstalled s |}.

Definition set_isSupportedNetwork (b : bool) (s : WalletState) : WalletState :=
  {| address := address s;
     chainId := chainId s;
     networkName := networkName s;
     isSupportedNetwork := b;
     isMetaMaskInstalled := isMetaMaskInstalled s |}.

Definition set_isMetaMaskInstalled (b : bool) (s : WalletState) : WalletState :=
  {| address := address s;
     chainId := chainId s;
     networkName := networkName s;
     isSupportedNetwork := isSupportedNetwork s;
     isMetaMaskInstalled := b |}.

(** ** The pure cores of the two update routines *)

Definition _normalizeAddress (address : string) : string := address.

(** [SUPPORTED_CHAIN_IDS.includes(cid)] *)
Definition includes (l : list string) (x : string) : bool := bool_decide (x ∈ l).

(** [accounts && accounts.length > 0 ? accounts[0] : null], then
    [addr ? this._normalizeAddress(addr) : null]. *)
Definition accounts_address (accounts : option (list string)) : option string :=
  let addr :=
    match accounts with
    | Some l => if bool_decide (0 < length l) then l !! 0 else None
    | None => None
    end in
  match addr with
  | Some a => if truthy_str a then Some (_normalizeAddress a) else None
  | None => None
  end.

(** [cid ? SUPPORTED_CHAIN_IDS.includes(cid) : false] *)
Definition chain_supported (cid : option string) : bool :=
  match cid with
  | Some c => if truthy_str c then includes SUPPORTED_CHAIN_IDS c else false
  | None => false
  end.

(** [CHAIN_NAME_MAP[cid] || `Chain ${cid}`] under the guard [cid ? _ : null]. *)
Definition chain_name (cid : option string) : option NameValue :=
  match cid with
  | Some c =>
      if truthy_str c then
        match CHAIN_NAME_MAP_get c with
        | Some (NameString n) =>
            if truthy_str n then Some (NameString n)
            else Some (NameString ("Chain " +:+ c))
        | Some (NameInherited key) => Some (NameInherited key)
        | None => Some (NameString ("Chain " +:+ c))
        end
      else None
  | None => None
  end.

Definition _handleAccountsChanged (accounts : option (list string))
    (s : WalletState) : WalletState :=
  set_address (accounts_address accounts) s.

Definition _handleChainChanged (chainId : option string)
    (s : WalletState) : WalletState :=
  let cid := or_null chainId in
  let s1 := set_chainId cid s in
  let supported := chain_supported cid in
  let s2 := set_isSupportedNetwork supported s1 in
  let name := chain_name cid in
  set_networkName name s2.

(** ** Provider errors *)

(** The [data] slot of an error: a primitive (absent is [undefined]) or
    an object, of which only its own [code] slot is ever read. *)
Inductive ErrData : Type :=
  | DataPrim (v : jsval)
  | DataObj (code : jsval).

Record ErrorObj : Type := {
  message : string;
  code : jsval;
  data : ErrData
}.

(** Anything a rejected request may carry: a primitive or an object. *)
Inductive Thrown : Type :=
  | ThrowPrim (v : jsval)
  | ThrowObj (e : ErrorObj).

#[global] Instance ErrData_eq_dec : EqDecision ErrData.
Proof. solve_decision. Defined.

#[global] Instance ErrorObj_eq_dec : EqDecision ErrorObj.
Proof. solve_decision. Defined.

#[global] Instance Thrown_eq_dec : EqDecision Thrown.
Proof. solve_decision. Defined.

(** [new Error(msg)] has neither [code] nor [data]. *)
Definition Error (msg : string) : ErrorObj :=
  {| message := msg; code := VUndefined; data := DataPrim VUndefined |}.

(** [err.data && err.data.code]: a falsy [data] is the result itself; a
    truthy primitive has no [code] property. *)
Definition data_code (d : ErrData) : jsval :=
  match d with
  | DataPrim v => if truthy v then VUndefined else v
  | DataObj c => c
  end.

(** [err && (err.code || (err.data && err.data.code))] *)
Definition errCode (err : Thrown) : jsval :=
  match err with
  | ThrowPrim v => if truthy v then VUndefined else v
  | ThrowObj e => if truthy (code e) then code e else data_code (data e)
  end.

(** ** The injected provider *)

Inductive Settled (A : Type) : Type :=
  | Resolved (a : A)
  | Rejected (err : Thrown).
Arguments Resolved {A} a.
Arguments Rejected {A} err.

(** The four [request({ method, params })] calls the service makes. *)
Inductive Request : Type :=
  | eth_requestAccounts
  | eth_chainId
  | wallet_switchEthereumChain (target : option string)
  | wallet_addEthereumChain (params : ChainParams).

#[global] Instance Request_eq_dec : EqDecision Request.
Proof. solve_decision. Defined.

(** [window.ethereum]: its two synchronously readable properties and how
    it settles each request, typed as the service consumes the result. *)
Record Ethereum : Type := {
  provider_chainId : option string;
  selectedAddress : option string;
  requestAccounts : Settled (option (list string));
  requestChainId : Settled (option string);
  switchEthereumChain : option string -> Settled unit;
  addEthereumChain : ChainParams -> Settled unit
}.

Record Window : Type := { ethereum : option Ethereum }.

(** ** The world an action runs in *)

Inductive ProviderEvent : Type := accountsChanged | chainChanged.

#[global] Instance ProviderEvent_eq_dec : EqDecision ProviderEvent.
Proof. solve_decision. Defined.

Record World : Type := {
  state : WalletState;
  requests : list Request;        (* requests sent to the provider, oldest first *)
  console : list Thrown;          (* arguments of console.error, oldest first *)
  listeners : list ProviderEvent  (* events a handler was attached for *)
}.

Definition with_state (f : WalletState -> WalletState) (σ : World) : World :=
  {| state := f (state σ); requests := requests σ;
     console := console σ; listeners := listeners σ |}.

Inductive Outcome (A : Type) : Type :=
  | Returned (a : A)
  | Threw (err : Thrown).
Arguments Returned {A} a.
Arguments Threw {A} err.

(** An action transforms the world and either returns or throws. *)
Definition Action (A : Type) : Type := World -> Outcome A * World.

#[global] Instance Action_ret : MRet Action := λ A a σ, (Returned a, σ).

#[global] Instance Action_bind : MBind Action := λ A B k m σ,
  match m σ with
  | (Returned a, σ') => k a σ'
  | (Threw err, σ') => (Threw err, σ')
  end.

Definition throw {A} (err : Thrown) : Action A := λ σ, (Threw err, σ).

Definition try_catch {A} (body : Action A) (handler : Thrown -> Action A) : Action A :=
  λ σ, match body σ with
       | (Returned a, σ') => (Returned a, σ')
       | (Threw err, σ') => handler err σ'
       end.

(** [subject$.next(...)] through a field update. *)
Definition next (f : WalletState -> WalletState) : Action unit :=
  λ σ, (Returned (), with_state f σ).

(** [subject$.getValue()] *)
Definition getValue {A} (field : WalletState -> A) : Action A :=
  λ σ, (Returned (field (state σ)), σ).

(** The world once request [r] has gone out to the provider. *)
Definition sent (r : Request) (σ : World) : World :=
  {| state := state σ; requests := requests σ ++ [r];
     console := console σ; listeners := listeners σ |}.

(** [await w.ethereum.request(r)], settled as the provider says. *)
Definition request {A} (r : Request) (answer : Settled A) : Action A :=
  λ σ,
    match answer with
    | Resolved a => (Returned a, sent r σ)
    | Rejected err => (Threw err, sent r σ)
    end.

Definition console_error (err : Thrown) : Action unit :=
  λ σ, (Returned (),
        {| state := state σ; requests := requests σ;
           console := console σ ++ [err]; listeners := listeners σ |}).

(** [w.ethereum.on(event, handler)] *)
Definition on (event : ProviderEvent) : Action unit :=
  λ σ, (Returned (),
        {| state := state σ; requests := requests σ;
           console := console σ; listeners := listeners σ ++ [event] |}).

(** ** The service *)

Definition _init (w : Window) : Action unit :=
  match ethereum w with
  | Some eth =>
      next (set_isMetaMaskInstalled true);;
      match or_null (provider_chainId eth) with
      | Some _ => next (_handleChainChanged (provider_chainId eth))
      | None => mret ()
      end;;
      match or_null (selectedAddress eth) with
      | Some addr => next (set_address (Some (_normalizeAddress addr)))
      | None => mret ()
      end;;
      on accountsChanged;;
      on chainChanged
  | None => next (set_isMetaMaskInstalled false)
  end.

Definition connect (w : Window) : Action (option string) :=
  match ethereum w with
  | None =>
      next (set_isMetaMaskInstalled false);;
      throw (ThrowObj (Error "MetaMask not installed"))
  | Some eth =>
      try_catch
        (accounts ← request eth_requestAccounts (requestAccounts eth);
         next (_handleAccountsChanged accounts);;
         chainId ← request eth_chainId (requestChainId eth);
         next (_handleChainChanged chainId);;
         getValue address)
        (λ err, console_error err;; throw err)
  end.

(** [(id) => id !== current] *)
Definition differs (current : option string) (id : string) : bool :=
  negb (bool_decide (Some id = current)).

Section Tables.
(** The switch logic, over any registry of supported chains and any
    table of connection parameters. *)
Variable supported : list string.
Variable chain_params : gmap string ChainParams.

(** [supported.find((id) => id !== current) || supported[0]] *)
Definition selectTarget (current : option string) : option string :=
  match List.find (differs current) supported with
  | Some id => if truthy_str id then Some id else supported !! 0
  | None => supported !! 0
  end.

(** [chain_params[target]], on the table's own keys: the targets are
    registry entries, and every entry of the service's registry is a key
    of CHAIN_PARAMS.  An undefined target reads the key "undefined". *)
Definition params_of (target : option string) : option ChainParams :=
  chain_params !! default "undefined" target.

Definition switchNetwork (w : Window) : Action unit :=
  match ethereum w with
  | None => throw (ThrowObj (Error "MetaMask not installed"))
  | Some eth =>
      current ← getValue chainId;
      let target := selectTarget current in
      try_catch
        (request (wallet_switchEthereumChain target) (switchEthereumChain eth target))
        (λ err,
           let code := errCode err in
           if strict_eq code (VNum 4902) then
             match params_of target with
             | Some params =>
                 request (wallet_addEthereumChain params) (addEthereumChain eth params)
             | None => throw err
             end
           else throw err)
  end.
End Tables.

Definition switchToSupportedNetwork : Window -> Action unit :=
  switchNetwork SUPPORTED_CHAIN_IDS CHAIN_PARAMS.

Definition disconnect : Action unit := next (set_address None).

(** The world right after [new Web3Service()]. *)
Definition constructor (w : Window) : World :=
  snd (_init w {| state := fresh; requests := []; console := []; listeners := [] |}).

(** ** Operations on a live service *)

Inductive Op : Type :=
  | Emit_accountsChanged (accounts : option (list string))
  | Emit_chainChanged (chainId : option string)
  | Call_connect (w : Window)
  | Call_switchToSupportedNetwork (w : Window)
  | Call_disconnect.

(** A provider event reaches its handler only if one was attached. *)
Definition deliver (event : ProviderEvent) (f : WalletState -> WalletState)
    (σ : World) : World :=
  if bool_decide (event ∈ listeners σ) then with_state f σ else σ.

Definition perform (op : Op) (σ : World) : World :=
  match op with
  | Emit_accountsChanged accounts =>
      deliver accountsChanged (_handleAccountsChanged accounts) σ
  | Emit_chainChanged chainId =>
      deliver chainChanged (_handleChainChanged chainId) σ
  | Call_connect w => snd (connect w σ)
  | Call_switchToSupportedNetwork w => snd (switchToSupportedNetwork w σ)
  | Call_disconnect => snd (disconnect σ)
  end.

Definition run (ops : list Op) (σ : World) : World :=
  fold_left (λ σ op, perform op σ) ops σ.

(** ** connect with its suspensions

    While [connect] waits for a request to settle, the provider may fire
    its events and the user may click disconnect; each of these runs to
    completion before the request settles. *)

Inductive Meanwhile : Type :=
  | Fires_accountsChanged (accounts : option (list string))
  | Fires_chainChanged (chainId : option string)
  | Clicks_disconnect.

Definition meanwhile_op (m : Meanwhile) : Op :=
  match m with
  | Fires_accountsChanged accounts => Emit_accountsChanged accounts
  | Fires_chainChanged chainId => Emit_chainChanged chainId
  | Clicks_disconnect => Call_disconnect
  end.

Definition meanwhile (ms : list Meanwhile) (σ : World) : World :=
  run (map meanwhile_op ms) σ.

(** [await w.ethereum.request(r)] with [ms] happening while it is
    pending. *)
Definition request_during {A} (r : Request) (ms : list Meanwhile)
    (answer : Settled A) : Action A :=
  λ σ,
    match answer with
    | Resolved a => (Returned a, meanwhile ms (sent r σ))
    | Rejected err => (Threw err, meanwhile ms (sent r σ))
    end.

(** [connect], with [ms1] happening while the accounts request is
    pending and [ms2] while the chain request is. *)
Definition connect_during (w : Window) (ms1 ms2 : list Meanwhile)
    : Action (option string) :=
  match ethereum w with
  | None =>
      next (set_isMetaMaskInstalled false);;
      throw (ThrowObj (Error "MetaMask not installed"))
  | Some eth =>
      try_catch
        (accounts ← request_during eth_requestAccounts ms1 (requestAccounts eth);
         next (_handleAccountsChanged accounts);;
         chainId ← request_during eth_chainId ms2 (requestChainId eth);
         next (_handleChainChanged chainId);;
         getValue address)
        (λ err, console_error err;; throw err)
  end.

(** ** The navigation bar's click handlers

    NavbarComponent wires its buttons to the service; [onClickSignOut]
    needs AuthService and Router and is left out. *)

(** [try { await this._web3.connect(); } catch (err) { }] *)
Definition onClickConnect (w : Window) : Action unit :=
  try_catch (connect w ≫= λ _, mret ()) (λ _, mret ()).

Definition onClickDisconnect : Action unit := disconnect.

(** [try { await this._web3.switchToSupportedNetwork(); }
     catch (err) { console.error('Failed to switch network', err); }] *)
Definition onClickSwitchNetwork (w : Window) : Action unit :=
  try_catch (switchToSupportedNetwork w) (λ err, console_error err).

(** ** Sample providers and errors *)

Definition ok_provider : Ethereum :=
  {| provider_chainId := Some "0x1";
     selectedAddress := Some "0xABC";
     requestAccounts := Resolved (Some ["0xDEF"; "0x123"]);
     requestChainId := Resolved (Some "0x89");
     switchEthereumChain := λ _, Resolved ();
     addEthereumChain := λ _, Resolved () |}.

(** A provider error that wraps the unrecognized-chain code: 4902 sits
    under [data], the top level carries -32603. *)
Definition wrapped_4902 : Thrown :=
  ThrowObj {| message := "Internal JSON-RPC error.";
              code := VNum (-32603);
              data := DataObj (VNum 4902) |}.

Definition wrapping_provider : Ethereum :=
  {| provider_chainId := Some "0x1";
     selectedAddress := None;
     requestAccounts := Resolved (Some []);
     requestChainId := Resolved (Some "0x1");
     switchEthereumChain := λ _, Rejected wrapped_4902;
     addEthereumChain := λ _, Resolved () |}.

Definition chain_rejecting_provider : Ethereum :=
  {| provider_chainId := None;
     selectedAddress := None;
     requestAccounts := Resolved (Some ["0xDEF"]);
     requestChainId := Rejected (ThrowObj (Error "chain request failed"));
     switchEthereumChain := λ _, Resolved ();
     addEthereumChain := λ _, Resolved () |}.

Definition unrecognized_chain : Thrown :=
  ThrowObj {| message := "Unrecognized chain ID";
              code := VNum 4902;
              data := DataPrim VUndefined |}.

Definition unknown_chain_provider : Ethereum :=
  {| provider_chainId := Some "0x1";
     selectedAddress := None;
     requestAccounts := Resolved (Some []);
     requestChainId := Resolved (Some "0x1");
     switchEthereumChain := λ _, Rejected unrecognized_chain;
     addEthereumChain := λ _, Resolved () |}.

(** ** What an operation may write, and the state predicates *)

(** The state after an operation is the state before it, rewritten by
    the update routines only; besides them there is the single write of
    [connect] when it finds no provider. *)
Inductive writes : WalletState → WalletState → Prop :=
  | writes_nothing s : writes s s
  | writes_accounts a s : writes s (_handleAccountsChanged a s)
  | writes_chain c s : writes s (_handleChainChanged c s)
  | writes_both a c s :
      writes s (_handleChainChanged c (_handleAccountsChanged a s))
  | writes_not_installed s : writes s (set_isMetaMaskInstalled false s).

Create HintDb wallet.
#[local] Hint Constructors writes : wallet.

(** [connect] called while [window.ethereum] is missing. *)
Definition connect_without_provider (op : Op) : bool :=
  match op with
  | Call_connect w => match ethereum w with Some _ => false | None => true end
  | _ => false
  end.

(** isSupportedNetwork is the membership of chainId in the registry. *)
Definition tracks_chain (s : WalletState) : Prop :=
  isSupportedNetwork s = true ↔
  ∃ c, chainId s = Some c ∧ c ∈ SUPPORTED_CHAIN_IDS.

(** No chain identifier has been read yet: the three chain fields still
    hold the values they were created with. *)
Definition chain_unread (s : WalletState) : Prop :=
  chainId s = None ∧ isSupportedNetwork s = true ∧ networkName s = None.

(** What the chain-update routine leaves in chainId and networkName. *)
Definition name_follows_chain (s : WalletState) : Prop :=
  chainId s ≠ Some "" ∧ networkName s = chain_name (chainId s).

(** The operations that call into the provider. *)
Definition contacts_provider (op : Op) : bool :=
  match op with
  | Call_connect _ | Call_switchToSupportedNetwork _ => true
  | _ => false
  end.

(** * Properties *)

(** ** The scenarios of the specification *)

Example handleChain_polygon :
  _handleChainChanged (Some "0x89") fresh =
  {| address := None; chainId := Some "0x89"; networkName := Some (NameString "Polygon");
     isSupportedNetwork := true; isMetaMaskInstalled := false |}.
Proof. vm_compute. reflexivity. Qed.

Example handleChain_unmapped :
  networkName (_handleChainChanged (Some "0x2a") fresh) =
  Some (NameString "Chain 0x2a").
Proof. vm_compute. reflexivity. Qed.

Example handleChain_inherited :
  networkName (_handleChainChanged (Some "constructor") fresh) =
  Some (NameInherited "constructor").
Proof. vm_compute. reflexivity. Qed.

Example init_present :
  state (constructor {| ethereum := Some ok_provider |}) =
  {| address := Some "0xABC"; chainId := Some "0x1";
     networkName := Some (NameString "Ethereum Mainnet");
     isSupportedNetwork := true; isMetaMaskInstalled := true |}.
Proof. vm_compute. reflexivity. Qed.

Example connect_scenario :
  let σ := constructor {| ethereum := None |} in
  let r := connect {| ethereum := Some ok_provider |} σ in
  fst r = Returned (Some "0xDEF") ∧
  state (snd r) =
  {| address := Some "0xDEF"; chainId := Some "0x89";
     networkName := Some (NameString "Polygon");
     isSupportedNetwork := true; isMetaMaskInstalled := false |} ∧
  requests (snd r) = [eth_requestAccounts; eth_chainId].
Proof. vm_compute. auto. Qed.

(** ** Truthiness and the tables *)

Lemma truthy_str_true (s : string) : truthy_str s = true ↔ s ≠ "".
Proof.
  unfold truthy_str. destruct (String.eqb_spec s ""); simpl; split; congruence.
Qed.

Lemma truthy_str_false (s : string) : truthy_str s = false ↔ s = "".
Proof.
  unfold truthy_str. destruct (String.eqb_spec s ""); simpl; split; congruence.
Qed.

Lemma or_null_Some (x : option string) (c : string) :
  or_null x = Some c ↔ x = Some c ∧ c ≠ "".
Proof.
  destruct x as [s|]; simpl.
  - destruct (truthy_str s) eqn:E.
    + apply truthy_str_true in E. split; [intros [= <-]; auto | intros [[= <-] _]; auto].
    + apply truthy_str_false in E. subst s.
      split; [discriminate | intros [[= <-] H]; congruence].
  - split; [discriminate | intros [? _]; discriminate].
Qed.

Lemma or_null_None (x : option string) :
  or_null x = None ↔ x = None ∨ x = Some "".
Proof.
  destruct x as [s|]; simpl.
  - destruct (truthy_str s) eqn:E.
    + apply truthy_str_true in E.
      split; [discriminate | intros [|[= ->]]; congruence].
    + apply truthy_str_false in E. subst s. split; auto.
  - split; auto.
Qed.

(** Every display name in the table is a non-empty string. *)
Lemma CHAIN_NAME_MAP_truthy (c n : string) :
  CHAIN_NAME_MAP !! c = Some n → truthy_str n = true.
Proof.
  intros H. apply elem_of_list_to_map_2 in H.
  repeat (apply elem_of_cons in H as [[= -> ->] | H]; [reflexivity |]).
  apply elem_of_nil in H. contradiction.
Qed.

(** The name the chain-update routine derives from a non-empty
    identifier, by where the lookup finds it. *)
Lemma chain_name_cases (c : string) :
  c ≠ "" →
  chain_name (Some c) =
  match CHAIN_NAME_MAP !! c with
  | Some n => Some (NameString n)
  | None =>
      if bool_decide (c ∈ Object_prototype) then Some (NameInherited c)
      else Some (NameString ("Chain " +:+ c))
  end.
Proof.
  intros Hc. apply truthy_str_true in Hc.
  unfold chain_name, CHAIN_NAME_MAP_get. rewrite Hc.
  destruct (CHAIN_NAME_MAP !! c) as [n|] eqn:Hn.
  - by rewrite (CHAIN_NAME_MAP_truthy _ _ Hn).
  - by case_bool_decide.
Qed.

(** ** The chain-update routine *)

Lemma handleChainChanged_frame (c : option string) (s : WalletState) :
  address (_handleChainChanged c s) = address s ∧
  isMetaMaskInstalled (_handleChainChanged c s) = isMetaMaskInstalled s.
Proof. split; reflexivity. Qed.

(** C4, as stated, fails on the empty string: it is a chain identifier
    that is present (not null) and has no entry in CHAIN_NAME_MAP, yet
    the routine stores null as network name, not the synthesized
    "Chain " string. *)
Lemma handleChainChanged_empty_not_synthesized :
  let s' := _handleChainChanged (Some "") fresh in
  CHAIN_NAME_MAP !! "" = None ∧
  networkName s' = None ∧
  networkName s' ≠ Some (NameString ("Chain " +:+ "")).
Proof. vm_compute. repeat split; discriminate. Qed.

(** C4 (amended): the chain-update routine on every input.  For a
    non-empty identifier [x] it stores [x] as chainId and the membership
    of [x] in SUPPORTED_CHAIN_IDS as isSupportedNetwork.  As networkName
    it stores the CHAIN_NAME_MAP entry of [x] when [x] is a key of the
    table, and "Chain x" when [x] is neither a key of the table nor the
    name of a member of Object.prototype ("0x2a" gives "Chain 0x2a").
    For null and for the empty string it stores null, false and null. *)
Theorem handleChainChanged_spec (c : option string) (s : WalletState) :
  let s' := _handleChainChanged c s in
  (∀ x, c = Some x → x ≠ "" →
     chainId s' = Some x ∧
     isSupportedNetwork s' = bool_decide (x ∈ SUPPORTED_CHAIN_IDS) ∧
     (∀ n, CHAIN_NAME_MAP !! x = Some n →
        networkName s' = Some (NameString n)) ∧
     (CHAIN_NAME_MAP !! x = None → x ∉ Object_prototype →
        networkName s' = Some (NameString ("Chain " +:+ x)))) ∧
  (c = None ∨ c = Some "" →
     chainId s' = None ∧ isSupportedNetwork s' = false ∧ networkName s' = None) ∧
  networkName (_handleChainChanged (Some "0x2a") s) =
    Some (NameString "Chain 0x2a").
Proof.
  cbv zeta. split; [| split].
  - intros x -> Hx. pose proof (chain_name_cases x Hx) as Hname.
    apply truthy_str_true in Hx.
    unfold _handleChainChanged; simpl. rewrite Hx.
    change (networkName _) with (chain_name (Some x)).
    unfold chain_supported, includes. rewrite Hx.
    repeat split.
    + intros n Hn. by rewrite Hname, Hn.
    + intros Hn Hp. rewrite Hname, Hn. by rewrite bool_decide_eq_false_2.
  - intros H. apply or_null_None in H.
    unfold _handleChainChanged. rewrite H. by simpl.
  - reflexivity.
Qed.

(** C10: the empty string fed to the chain-update routine behaves exactly
    as null: the resulting state is the same, with chainId null,
    isSupportedNetwork false and networkName null. *)
Theorem handleChainChanged_empty_as_null (s : WalletState) :
  _handleChainChanged (Some "") s = _handleChainChanged None s ∧
  chainId (_handleChainChanged (Some "") s) = None ∧
  isSupportedNetwork (_handleChainChanged (Some "") s) = false ∧
  networkName (_handleChainChanged (Some "") s) = None.
Proof. repeat split. Qed.

(** ** The account-update routine *)

(** C5, as stated, fails on a list whose first entry is the empty
    string: the list is non-empty, but address becomes null rather than
    that first entry. *)
Lemma handleAccountsChanged_empty_first_entry :
  let accounts := [""] in
  let s' := _handleAccountsChanged (Some accounts) fresh in
  accounts ≠ [] ∧
  accounts !! 0 = Some "" ∧
  address s' = None ∧
  address s' ≠ Some (_normalizeAddress "").
Proof. vm_compute. repeat split; discriminate. Qed.

(** C5 (amended): the account-update routine sets address to the first
    entry of the list (normalized) when the list is non-empty and that
    entry is a non-empty string, and to null otherwise, that is for a
    null, undefined or empty list and for an empty first entry.  The
    other four fields are left alone. *)
Theorem handleAccountsChanged_spec (accounts : option (list string))
    (s : WalletState) :
  let s' := _handleAccountsChanged accounts s in
  (∀ a rest, accounts = Some (a :: rest) → a ≠ "" →
     address s' = Some (_normalizeAddress a)) ∧
  (accounts = None ∨ accounts = Some [] ∨ (∃ rest, accounts = Some ("" :: rest)) →
     address s' = None) ∧
  address (_handleAccountsChanged (Some []) s) = None ∧
  chainId s' = chainId s ∧
  networkName s' = networkName s ∧
  isSupportedNetwork s' = isSupportedNetwork s ∧
  isMetaMaskInstalled s' = isMetaMaskInstalled s.
Proof.
  cbv zeta. repeat split.
  - intros a rest -> Ha. apply truthy_str_true in Ha.
    unfold _handleAccountsChanged, accounts_address; simpl. by rewrite Ha.
  - intros [-> | [-> | [rest ->]]]; reflexivity.
Qed.

(** ** disconnect *)

(** C8: disconnect returns at once, sets address to null, sends nothing
    to the provider (the request log, the console and the listeners are
    untouched) and leaves chainId, networkName, isSupportedNetwork and
    isMetaMaskInstalled as they were. *)
Theorem disconnect_local (σ : World) :
  fst (disconnect σ) = Returned () ∧
  address (state (snd (disconnect σ))) = None ∧
  requests (snd (disconnect σ)) = requests σ ∧
  console (snd (disconnect σ)) = console σ ∧
  listeners (snd (disconnect σ)) = listeners σ ∧
  chainId (state (snd (disconnect σ))) = chainId (state σ) ∧
  networkName (state (snd (disconnect σ))) = networkName (state σ) ∧
  isSupportedNetwork (state (snd (disconnect σ))) = isSupportedNetwork (state σ) ∧
  isMetaMaskInstalled (state (snd (disconnect σ))) = isMetaMaskInstalled (state σ).
Proof. repeat split. Qed.

(** ** switchToSupportedNetwork: target selection *)

Section Switch.
Variable registry : list string.
Variable params : gmap string ChainParams.

Lemma find_differs_first (current : option string) (i : nat) (t : string) :
  registry !! i = Some t →
  Some t ≠ current →
  (∀ j u, j < i → registry !! j = Some u → Some u = current) →
  List.find (differs current) registry = Some t.
Proof using Type.
  revert i. induction registry as [|id rest IH]; intros i Hi Ht Hbefore.
  - rewrite lookup_nil in Hi. discriminate.
  - destruct i as [|i]; simpl in *.
    + injection Hi as ->. unfold differs.
      rewrite bool_decide_eq_false_2 by done. reflexivity.
    + unfold differs at 1.
      rewrite bool_decide_eq_true_2 by (apply (Hbefore 0 id); [lia | done]).
      simpl. apply (IH i); [done | done |].
      intros j u Hj Hu. apply (Hbefore (S j) u); [lia | done].
Qed.

Lemma find_differs_none (current : option string) :
  (∀ u, u ∈ registry → Some u = current) →
  List.find (differs current) registry = None.
Proof using Type.
  induction registry as [|id rest IH]; intros Hall; [reflexivity |].
  simpl. unfold differs at 1.
  rewrite bool_decide_eq_true_2 by (apply Hall; left).
  simpl. apply IH. intros u Hu. apply Hall. by right.
Qed.

(** What [switchNetwork] does once a provider is there, one case per
    way the switch request settles. *)
Lemma switchNetwork_present (eth : Ethereum) (σ : World) :
  let target := selectTarget registry (chainId (state σ)) in
  let σ1 := sent (wallet_switchEthereumChain target) σ in
  switchNetwork registry params {| ethereum := Some eth |} σ =
  match switchEthereumChain eth target with
  | Resolved _ => (Returned (), σ1)
  | Rejected err =>
      if strict_eq (errCode err) (VNum 4902) then
        match params_of params target with
        | Some p => request (wallet_addEthereumChain p) (addEthereumChain eth p) σ1
        | None => (Threw err, σ1)
        end
      else (Threw err, σ1)
  end.
Proof using Type.
  cbv zeta. unfold switchNetwork; simpl.
  unfold mbind, Action_bind, getValue, try_catch, request; simpl.
  destruct (switchEthereumChain eth _) as [[]|err]; [reflexivity |].
  destruct (strict_eq _ _); [| reflexivity].
  destruct (params_of _ _); reflexivity.
Qed.

(** C6: the target of a switch is the first registry entry that
    differs from the current chainId, and the first entry of the
    registry when none differs; this target is what the switch request
    carries.  SUPPORTED_CHAIN_IDS has no empty entry, and with
    chainId = "0x1" the target is "0x5". *)
Theorem switch_target_selection (current : option string) :
  Forall (λ id, id ≠ "") registry →
  let target := selectTarget registry current in
  (∀ i t, registry !! i = Some t → Some t ≠ current →
     (∀ j u, j < i → registry !! j = Some u → Some u = current) →
     target = Some t) ∧
  ((∀ u, u ∈ registry → Some u = current) → target = registry !! 0) ∧
  (∀ eth σ, chainId (state σ) = current →
     take (S (length (requests σ)))
       (requests (snd (switchNetwork registry params {| ethereum := Some eth |} σ)))
     = requests σ ++ [wallet_switchEthereumChain target]) ∧
  Forall (λ id, id ≠ "") SUPPORTED_CHAIN_IDS ∧
  selectTarget SUPPORTED_CHAIN_IDS (Some "0x1") = Some "0x5".
Proof using Type.
  intros Hne. cbv zeta. repeat split.
  - intros i t Hi Ht Hbefore. unfold selectTarget.
    rewrite (find_differs_first current i t) by done.
    assert (t ≠ "") as Ht'.
    { rewrite Forall_forall in Hne. apply Hne. by eapply list_elem_of_lookup_2. }
    apply truthy_str_true in Ht'. by rewrite Ht'.
  - intros Hall. unfold selectTarget.
    by rewrite find_differs_none.
  - intros eth σ <-. rewrite switchNetwork_present.
    set (target := selectTarget registry (chainId (state σ))).
    assert (∀ l x (r : list Request),
              take (S (length l)) (l ++ x :: r) = l ++ [x]) as Htake.
    { intros l x r. induction l as [|y l IH]; simpl; [by rewrite take_0 |].
      by rewrite IH. }
    destruct (switchEthereumChain eth target) as [[]|err]; simpl.
    + apply Htake.
    + destruct (strict_eq _ _); simpl; [| apply Htake].
      destruct (params_of _ _) as [p|]; simpl; [| apply Htake].
      unfold request.
      destruct (addEthereumChain eth p); simpl; rewrite <- app_assoc; apply Htake.
  - repeat constructor; discriminate.
Qed.
End Switch.

(** ** switchToSupportedNetwork: the rejected switch *)

(** C7, as stated, fails on an error that carries 4902 under its data
    field beside another top-level code: the target "0x5" has an entry in
    CHAIN_PARAMS, yet no add-chain request goes out and the error is
    re-raised. *)
Lemma switch_nested_4902_not_added :
  let w := {| ethereum := Some wrapping_provider |} in
  let σ := constructor w in
  selectTarget SUPPORTED_CHAIN_IDS (chainId (state σ)) = Some "0x5" ∧
  CHAIN_PARAMS !! "0x5" = Some params_goerli ∧
  data_code (DataObj (VNum 4902)) = VNum 4902 ∧
  fst (switchToSupportedNetwork w σ) = Threw wrapped_4902 ∧
  requests (snd (switchToSupportedNetwork w σ)) =
    [wallet_switchEthereumChain (Some "0x5")] ∧
  wallet_addEthereumChain params_goerli ∉ requests (snd (switchToSupportedNetwork w σ)).
Proof.
  vm_compute. repeat split.
  intros H. apply list_elem_of_singleton in H. discriminate.
Qed.

(** C7 (amended): when the switch request is rejected, the code that
    decides is the error's top-level code when that is truthy and
    otherwise the code under its data field.  If that code is 4902 and
    the parameter table has an entry for the target, an add-chain request
    with that entry is issued and its settlement is the result; if it is
    4902 and the table has no entry, the original error is re-raised; for
    any other code the original error is re-raised.  No request beyond
    the switch goes out in the last two cases. *)
Theorem switch_error_handling (registry : list string)
    (params : gmap string ChainParams) (eth : Ethereum) (σ : World)
    (err : Thrown) :
  let w := {| ethereum := Some eth |} in
  let target := selectTarget registry (chainId (state σ)) in
  let σ1 := sent (wallet_switchEthereumChain target) σ in
  switchEthereumChain eth target = Rejected err →
  (∀ p, errCode err = VNum 4902 → params_of params target = Some p →
     switchNetwork registry params w σ =
     request (wallet_addEthereumChain p) (addEthereumChain eth p) σ1) ∧
  (errCode err = VNum 4902 → params_of params target = None →
     switchNetwork registry params w σ = (Threw err, σ1)) ∧
  (errCode err ≠ VNum 4902 →
     switchNetwork registry params w σ = (Threw err, σ1)) ∧
  (∀ e, err = ThrowObj e → truthy (code e) = true → errCode err = code e) ∧
  (∀ e, err = ThrowObj e → truthy (code e) = false →
     errCode err = data_code (data e)) ∧
  (∀ v, err = ThrowPrim v → errCode err ≠ VNum 4902).
Proof.
  cbv zeta. intros Hrej. rewrite switchNetwork_present, Hrej.
  unfold strict_eq. repeat split.
  - intros p Hc Hp. rewrite bool_decide_eq_true_2 by done. by rewrite Hp.
  - intros Hc Hp. rewrite bool_decide_eq_true_2 by done. by rewrite Hp.
  - intros Hc. by rewrite bool_decide_eq_false_2.
  - intros e -> Ht. simpl. by rewrite Ht.
  - intros e -> Ht. simpl. by rewrite Ht.
  - intros v -> . simpl. destruct (truthy v) eqn:Ht; [discriminate |].
    intros ->. discriminate.
Qed.

(** ** Failing actions and the state *)

(** C1, as stated, fails for connect: when the accounts request resolves
    and the chain request is rejected, connect raises, and address has
    already been changed. *)
Lemma connect_fails_after_address_update :
  let w := {| ethereum := Some chain_rejecting_provider |} in
  let σ := constructor w in
  fst (connect w σ) = Threw (ThrowObj (Error "chain request failed")) ∧
  address (state σ) = None ∧
  address (state (snd (connect w σ))) = Some "0xDEF" ∧
  state (snd (connect w σ)) ≠ state σ.
Proof. vm_compute. repeat split. discriminate. Qed.

Lemma connect_absent (w : Window) (σ : World) :
  ethereum w = None →
  connect w σ = (Threw (ThrowObj (Error "MetaMask not installed")),
                 with_state (set_isMetaMaskInstalled false) σ).
Proof. intros H. unfold connect. rewrite H. reflexivity. Qed.

(** What [connect] does once a provider is there, one case per way its
    two requests settle. *)
Lemma connect_present (w : Window) (eth : Ethereum) (σ : World) :
  ethereum w = Some eth →
  let σ1 := sent eth_requestAccounts σ in
  connect w σ =
  match requestAccounts eth with
  | Rejected err => (Threw err, snd (console_error err σ1))
  | Resolved accounts =>
      let σ2 := sent eth_chainId (with_state (_handleAccountsChanged accounts) σ1) in
      match requestChainId eth with
      | Rejected err => (Threw err, snd (console_error err σ2))
      | Resolved chainId =>
          let σ3 := with_state (_handleChainChanged chainId) σ2 in
          (Returned (address (state σ3)), σ3)
      end
  end.
Proof.
  intros H. unfold connect. rewrite H. cbv zeta.
  unfold try_catch, mbind, Action_bind, request, next, getValue, console_error, throw.
  destruct (requestAccounts eth) as [accounts|err]; [| reflexivity].
  simpl. destruct (requestChainId eth) as [chainId|err]; reflexivity.
Qed.

Lemma switchNetwork_state (registry : list string)
    (params : gmap string ChainParams) (w : Window) (σ : World) :
  state (snd (switchNetwork registry params w σ)) = state σ ∧
  listeners (snd (switchNetwork registry params w σ)) = listeners σ.
Proof.
  destruct w as [[eth|]]; [| split; reflexivity].
  rewrite switchNetwork_present. cbv zeta.
  destruct (switchEthereumChain eth _) as [[]|err]; [split; reflexivity |].
  destruct (strict_eq _ _); [| split; reflexivity].
  destruct (params_of _ _) as [p|]; [| split; reflexivity].
  unfold request. destruct (addEthereumChain eth p); split; reflexivity.
Qed.

(** C1 (amended): switchToSupportedNetwork never writes the state, so a
    failed switch leaves all five fields as they were, and disconnect
    never fails.  connect has no rollback.  When it fails on the accounts
    request the state is unchanged.  When it fails because no provider is
    present it has set isMetaMaskInstalled to false and nothing else.
    When it fails on the chain request after the accounts request
    resolved, address holds what the account-update routine made of the
    returned list and the other four fields are unchanged. *)
Theorem failed_action_state (w : Window) (σ : World) :
  (∀ err σ', connect w σ = (Threw err, σ') →
     (ethereum w = None ∧
      state σ' = set_isMetaMaskInstalled false (state σ)) ∨
     (∃ eth, ethereum w = Some eth ∧
        requestAccounts eth = Rejected err ∧
        state σ' = state σ) ∨
     (∃ eth accounts, ethereum w = Some eth ∧
        requestAccounts eth = Resolved accounts ∧
        requestChainId eth = Rejected err ∧
        state σ' = _handleAccountsChanged accounts (state σ))) ∧
  (∀ err σ', switchToSupportedNetwork w σ = (Threw err, σ') → state σ' = state σ) ∧
  (∀ err σ', disconnect σ ≠ (Threw err, σ')).
Proof.
  split; [| split].
  - intros err σ' H. destruct (ethereum w) as [eth|] eqn:Hw.
    + right. rewrite (connect_present w eth σ Hw) in H. cbv zeta in H.
      destruct (requestAccounts eth) as [accounts|e] eqn:Ha.
      * right. exists eth, accounts.
        destruct (requestChainId eth) as [c|e] eqn:Hc; [discriminate |].
        injection H as <- <-. auto.
      * left. exists eth. injection H as <- <-. auto.
    + left. rewrite (connect_absent w σ Hw) in H. injection H as <- <-. auto.
  - intros err σ' H.
    pose proof (switchNetwork_state SUPPORTED_CHAIN_IDS CHAIN_PARAMS w σ) as [Hs _].
    unfold switchToSupportedNetwork in H. rewrite H in Hs. exact Hs.
  - intros err σ'. discriminate.
Qed.

(** ** Traces of operations *)

Lemma connect_state (w : Window) (σ : World) :
  writes (state σ) (state (snd (connect w σ))) ∧
  listeners (snd (connect w σ)) = listeners σ.
Proof.
  destruct (ethereum w) as [eth|] eqn:Hw.
  - rewrite (connect_present w eth σ Hw). cbv zeta.
    destruct (requestAccounts eth) as [a|e]; [| split; simpl; auto with wallet].
    destruct (requestChainId eth) as [c|e]; split; simpl; auto with wallet.
  - rewrite (connect_absent w σ Hw). split; simpl; auto with wallet.
Qed.

Lemma perform_writes (op : Op) (σ : World) :
  writes (state σ) (state (perform op σ)) ∧
  listeners (perform op σ) = listeners σ.
Proof.
  destruct op as [a|c|w|w|]; simpl.
  - unfold deliver. case_bool_decide; split; simpl; auto with wallet.
  - unfold deliver. case_bool_decide; split; simpl; auto with wallet.
  - apply connect_state.
  - destruct (switchNetwork_state SUPPORTED_CHAIN_IDS CHAIN_PARAMS w σ) as [Hs Hl].
    unfold switchToSupportedNetwork. rewrite Hs, Hl. auto with wallet.
  - split; [apply (writes_accounts None) | reflexivity].
Qed.

(** An invariant of the fresh service that the initial probe and every
    write keep holds after every trace. *)
Lemma run_invariant (P : WalletState → Prop) :
  (∀ s s', writes s s' → P s → P s') →
  ∀ ops σ, P (state σ) → P (state (run ops σ)).
Proof.
  intros Hstep ops. induction ops as [|op ops IH]; intros σ Hσ; [exact Hσ |].
  simpl. apply IH. eapply Hstep; [apply perform_writes | exact Hσ].
Qed.

(** The state right after construction. *)
Lemma constructor_state (w : Window) :
  state (constructor w) =
  match ethereum w with
  | None => set_isMetaMaskInstalled false fresh
  | Some eth =>
      let s1 := set_isMetaMaskInstalled true fresh in
      let s2 := match or_null (provider_chainId eth) with
                | Some _ => _handleChainChanged (provider_chainId eth) s1
                | None => s1
                end in
      match or_null (selectedAddress eth) with
      | Some addr => set_address (Some (_normalizeAddress addr)) s2
      | None => s2
      end
  end.
Proof.
  unfold constructor, _init. destruct (ethereum w) as [eth|]; [| reflexivity].
  cbv zeta. destruct (or_null (provider_chainId eth)),
    (or_null (selectedAddress eth)); reflexivity.
Qed.

(** *** isMetaMaskInstalled *)

(** C2, as stated, fails: after a construction that found the provider,
    a connect that finds it missing writes false over the probe's true. *)
Lemma connect_rewrites_isMetaMaskInstalled :
  let σ0 := constructor {| ethereum := Some ok_provider |} in
  let σ1 := run [Call_connect {| ethereum := None |}] σ0 in
  isMetaMaskInstalled (state σ0) = true ∧
  isMetaMaskInstalled (state σ1) = false.
Proof. vm_compute. split; reflexivity. Qed.

Lemma perform_isMetaMaskInstalled (op : Op) (σ : World) :
  isMetaMaskInstalled (state (perform op σ)) =
  if connect_without_provider op then false else isMetaMaskInstalled (state σ).
Proof.
  destruct op as [a|c|w|w|]; simpl.
  - unfold deliver. by case_bool_decide.
  - unfold deliver. by case_bool_decide.
  - destruct (ethereum w) as [eth|] eqn:Hw.
    + rewrite (connect_present w eth σ Hw). cbv zeta.
      destruct (requestAccounts eth) as [a|e]; [| reflexivity].
      destruct (requestChainId eth) as [c|e]; reflexivity.
    + by rewrite (connect_absent w σ Hw).
  - unfold switchToSupportedNetwork.
    by rewrite (proj1 (switchNetwork_state _ _ w σ)).
  - reflexivity.
Qed.

Lemma run_isMetaMaskInstalled (ops : list Op) (σ : World) :
  Forall (λ op, connect_without_provider op = true →
                isMetaMaskInstalled (state σ) = false) ops →
  isMetaMaskInstalled (state (run ops σ)) = isMetaMaskInstalled (state σ).
Proof.
  revert σ. induction ops as [|op ops IH]; intros σ Hall; [reflexivity |].
  apply Forall_cons in Hall as [Hop Hops].
  assert (isMetaMaskInstalled (state (perform op σ)) = isMetaMaskInstalled (state σ)) as E.
  { rewrite perform_isMetaMaskInstalled.
    destruct (connect_without_provider op); [symmetry; by apply Hop | reflexivity]. }
  simpl. rewrite IH; [exact E |]. by rewrite E.
Qed.

(** C2 (amended): isMetaMaskInstalled is assigned by the initialization
    probe (true exactly when a provider is present).  Afterwards
    disconnect, switchToSupportedNetwork, the event callbacks and a
    connect that finds a provider never write it; a connect that finds no
    provider writes false.  So for every sequence of operations in which
    no connect finds the provider missing after construction had found
    it, the field keeps the value set by the probe. *)
Theorem isMetaMaskInstalled_after_init (w0 : Window) (ops : list Op) :
  (Forall (λ op, connect_without_provider op = true → ethereum w0 = None) ops →
   isMetaMaskInstalled (state (run ops (constructor w0))) =
   isMetaMaskInstalled (state (constructor w0))) ∧
  (∀ σ op, connect_without_provider op = false →
     isMetaMaskInstalled (state (perform op σ)) = isMetaMaskInstalled (state σ)) ∧
  (∀ σ op, connect_without_provider op = true →
     isMetaMaskInstalled (state (perform op σ)) = false) ∧
  isMetaMaskInstalled (state (constructor w0)) =
    match ethereum w0 with Some _ => true | None => false end.
Proof.
  assert (isMetaMaskInstalled (state (constructor w0)) =
          match ethereum w0 with Some _ => true | None => false end) as Hinit.
  { rewrite constructor_state. destruct (ethereum w0) as [eth|]; [| reflexivity].
    cbv zeta. destruct (or_null (provider_chainId eth)),
      (or_null (selectedAddress eth)); reflexivity. }
  repeat split.
  - intros Hall. apply run_isMetaMaskInstalled.
    eapply Forall_impl; [exact Hall |]. simpl. intros op Hop Hc.
    rewrite Hinit, (Hop Hc). reflexivity.
  - intros σ op Hc. by rewrite perform_isMetaMaskInstalled, Hc.
  - intros σ op Hc. by rewrite perform_isMetaMaskInstalled, Hc.
  - exact Hinit.
Qed.

(** *** isSupportedNetwork *)

(** C3, as stated, fails at the initial state: before any chain read
    chainId is null and isSupportedNetwork is true. *)
Lemma initial_isSupportedNetwork_true :
  let s := state (constructor {| ethereum := None |}) in
  chainId s = None ∧
  isSupportedNetwork s = true ∧
  ¬ tracks_chain s.
Proof.
  repeat split. intros [H _]. destruct (H eq_refl) as (c & Hc & _). discriminate.
Qed.

Lemma handleChainChanged_tracks (c : option string) (s : WalletState) :
  tracks_chain (_handleChainChanged c s).
Proof.
  unfold tracks_chain, _handleChainChanged; simpl.
  destruct (or_null c) as [x|] eqn:Hx; simpl.
  - apply or_null_Some in Hx as [_ Hx]. apply truthy_str_true in Hx. rewrite Hx.
    unfold includes. rewrite bool_decide_eq_true. split.
    + intros H. by exists x.
    + by intros (? & [= <-] & H).
  - split; [discriminate | by intros (? & ? & _)].
Qed.

Lemma writes_tracks (s s' : WalletState) :
  writes s s' → tracks_chain s → tracks_chain s'.
Proof.
  intros [ | | | | ] H; try exact H; apply handleChainChanged_tracks.
Qed.

Lemma writes_tracks_or_unread (s s' : WalletState) :
  writes s s' →
  tracks_chain s ∨ chain_unread s → tracks_chain s' ∨ chain_unread s'.
Proof.
  intros [ | | | | ] H; try exact H;
    left; apply handleChainChanged_tracks.
Qed.

(** C3 (amended): at every reachable state isSupportedNetwork is true
    exactly when chainId is a member of SUPPORTED_CHAIN_IDS (so false
    when chainId is null), except while no chain identifier has been
    read yet, when chainId and networkName are null and
    isSupportedNetwork still holds its initial value true.  Every chain
    update establishes the equivalence, and once it holds it holds after
    every further operation. *)
Theorem isSupportedNetwork_tracks_chainId (w0 : Window) (ops : list Op) :
  (tracks_chain (state (run ops (constructor w0))) ∨
   chain_unread (state (run ops (constructor w0)))) ∧
  (∀ c s, tracks_chain (_handleChainChanged c s)) ∧
  (∀ σ, tracks_chain (state σ) → tracks_chain (state (run ops σ))).
Proof.
  split; [| split].
  - apply (run_invariant (λ s, tracks_chain s ∨ chain_unread s)).
    + apply writes_tracks_or_unread.
    + rewrite constructor_state.
      destruct (ethereum w0) as [eth|]; [| right; by repeat split].
      cbv zeta.
      destruct (or_null (provider_chainId eth)),
        (or_null (selectedAddress eth));
        first [ left; apply (handleChainChanged_tracks (provider_chainId eth))
              | right; by repeat split ].
  - apply handleChainChanged_tracks.
  - apply (run_invariant tracks_chain). apply writes_tracks.
Qed.

(** *** address *)

Lemma accounts_address_nonempty (accounts : option (list string)) :
  accounts_address accounts ≠ Some "".
Proof.
  unfold accounts_address.
  destruct accounts as [[|a rest]|]; simpl; try discriminate.
  destruct (truthy_str a) eqn:Ha; [| discriminate].
  apply truthy_str_true in Ha. unfold _normalizeAddress. congruence.
Qed.

Lemma writes_address_nonempty (s s' : WalletState) :
  writes s s' → address s ≠ Some "" → address s' ≠ Some "".
Proof.
  intros [ | | | | ] H; try exact H; simpl; apply accounts_address_nonempty.
Qed.

(** C9: address is never the empty string.  After construction against
    any window and any sequence of account-change and chain-change
    events (with arbitrary payloads), connect calls (against any
    provider answers), switches and disconnects, address is null or a
    non-empty string; an account-change event whose list starts with the
    empty string leaves it null. *)
Theorem address_never_empty (w0 : Window) (ops : list Op) :
  (address (state (run ops (constructor w0))) = None ∨
   ∃ a, address (state (run ops (constructor w0))) = Some a ∧ a ≠ "") ∧
  (∀ rest s, address (_handleAccountsChanged (Some ("" :: rest)) s) = None).
Proof.
  split; [| reflexivity].
  assert (address (state (run ops (constructor w0))) ≠ Some "") as H.
  { apply (run_invariant (λ s, address s ≠ Some "")).
    - apply writes_address_nonempty.
    - rewrite constructor_state.
      destruct (ethereum w0) as [eth|]; [| discriminate].
      cbv zeta.
      destruct (or_null (provider_chainId eth)),
        (or_null (selectedAddress eth)) as [addr|] eqn:Ha; simpl;
        try discriminate;
        apply or_null_Some in Ha as [_ Ha]; unfold _normalizeAddress; congruence. }
  destruct (address _) as [a|]; [right | by left].
  exists a. split; [reflexivity | congruence].
Qed.

(** * The theorems at concrete inputs *)

Lemma handleChainChanged_spec_witness :
  chainId (_handleChainChanged (Some "0x89") fresh) = Some "0x89" ∧
  isSupportedNetwork (_handleChainChanged (Some "0x89") fresh) = true ∧
  networkName (_handleChainChanged (Some "0x89") fresh) =
    Some (NameString "Polygon") ∧
  networkName (_handleChainChanged (Some "0x539") fresh) =
    Some (NameString "Chain 0x539").
Proof.
  destruct (handleChainChanged_spec (Some "0x89") fresh) as [H _].
  destruct (H "0x89" eq_refl) as (Hc & Hs & Hn & _); [discriminate |].
  destruct (handleChainChanged_spec (Some "0x539") fresh) as [H' _].
  destruct (H' "0x539" eq_refl) as (_ & _ & _ & Hu); [discriminate |].
  split; [exact Hc |]. split; [rewrite Hs; vm_compute; reflexivity |].
  split; [apply Hn; vm_compute; reflexivity |].
  apply Hu; [vm_compute; reflexivity |].
  apply (proj1 (bool_decide_eq_false _)). vm_compute. reflexivity.
Defined.

Lemma handleAccountsChanged_spec_witness :
  address (_handleAccountsChanged (Some ["0xDEF"; "0x123"]) fresh) = Some "0xDEF" ∧
  address (_handleAccountsChanged (Some [""; "0x123"]) fresh) = None.
Proof.
  split.
  - destruct (handleAccountsChanged_spec (Some ["0xDEF"; "0x123"]) fresh) as [H _].
    apply (H "0xDEF" ["0x123"]); [reflexivity | discriminate].
  - destruct (handleAccountsChanged_spec (Some [""; "0x123"]) fresh) as (_ & H & _).
    apply H. right; right. exists ["0x123"]. reflexivity.
Defined.

Lemma switch_target_selection_witness :
  selectTarget SUPPORTED_CHAIN_IDS (Some "0x1") = Some "0x5" ∧
  selectTarget SUPPORTED_CHAIN_IDS None = Some "0x1" ∧
  selectTarget ["0x1"] (Some "0x1") = Some "0x1".
Proof.
  assert (Forall (λ id : string, id ≠ "") SUPPORTED_CHAIN_IDS) as Hs
    by (repeat constructor; discriminate).
  assert (Forall (λ id : string, id ≠ "") ["0x1"]) as H1
    by (repeat constructor; discriminate).
  split; [| split].
  - destruct (switch_target_selection SUPPORTED_CHAIN_IDS CHAIN_PARAMS (Some "0x1") Hs)
      as [H _].
    apply (H 1 "0x5"); [reflexivity | discriminate |].
    intros [|j] u Hj Hu; [| lia]. injection Hu as <-. reflexivity.
  - destruct (switch_target_selection SUPPORTED_CHAIN_IDS CHAIN_PARAMS None Hs)
      as [H _].
    apply (H 0 "0x1"); [reflexivity | discriminate |].
    intros j u Hj. lia.
  - destruct (switch_target_selection ["0x1"] CHAIN_PARAMS (Some "0x1") H1)
      as (_ & H & _).
    apply H. intros u Hu. apply list_elem_of_singleton in Hu. by subst u.
Defined.

Lemma switch_error_handling_witness :
  let w := {| ethereum := Some unknown_chain_provider |} in
  let σ := constructor w in
  switchToSupportedNetwork w σ =
    (Returned (),
     sent (wallet_addEthereumChain params_goerli)
       (sent (wallet_switchEthereumChain (Some "0x5")) σ)) ∧
  switchNetwork SUPPORTED_CHAIN_IDS ∅ w σ =
    (Threw unrecognized_chain, sent (wallet_switchEthereumChain (Some "0x5")) σ).
Proof.
  cbv zeta. split.
  - destruct (switch_error_handling SUPPORTED_CHAIN_IDS CHAIN_PARAMS
                unknown_chain_provider
                (constructor {| ethereum := Some unknown_chain_provider |})
                unrecognized_chain eq_refl) as [H _].
    unfold switchToSupportedNetwork.
    rewrite (H params_goerli); [reflexivity | reflexivity | vm_compute; reflexivity].
  - destruct (switch_error_handling SUPPORTED_CHAIN_IDS ∅
                unknown_chain_provider
                (constructor {| ethereum := Some unknown_chain_provider |})
                unrecognized_chain eq_refl) as (_ & H & _).
    rewrite H; [reflexivity | reflexivity | vm_compute; reflexivity].
Defined.

Lemma failed_action_state_witness :
  let w := {| ethereum := Some chain_rejecting_provider |} in
  let σ := constructor w in
  state (snd (connect w σ)) = _handleAccountsChanged (Some ["0xDEF"]) (state σ) ∧
  state (snd (switchToSupportedNetwork {| ethereum := None |} σ)) = state σ.
Proof.
  cbv zeta.
  set (w := {| ethereum := Some chain_rejecting_provider |}).
  split.
  - destruct (failed_action_state w (constructor w)) as [H _].
    destruct (H (ThrowObj (Error "chain request failed"))
                (snd (connect w (constructor w))))
      as [[Hw _] | [(eth & Hw & Ha & _) | (eth & a & Hw & Ha & _ & Hs)]].
    + vm_compute. reflexivity.
    + discriminate Hw.
    + injection Hw as <-. discriminate Ha.
    + injection Hw as <-. injection Ha as <-. exact Hs.
  - destruct (failed_action_state {| ethereum := None |} (constructor w))
      as (_ & H & _).
    apply (H (ThrowObj (Error "MetaMask not installed"))). reflexivity.
Defined.

Lemma isMetaMaskInstalled_after_init_witness :
  let w := {| ethereum := Some ok_provider |} in
  isMetaMaskInstalled
    (state (run [Emit_accountsChanged (Some []); Call_connect w;
                 Emit_chainChanged (Some "0x5");
                 Call_switchToSupportedNetwork w; Call_disconnect]
              (constructor w))) = true.
Proof.
  cbv zeta.
  destruct (isMetaMaskInstalled_after_init {| ethereum := Some ok_provider |}
              [Emit_accountsChanged (Some []);
               Call_connect {| ethereum := Some ok_provider |};
               Emit_chainChanged (Some "0x5");
               Call_switchToSupportedNetwork {| ethereum := Some ok_provider |};
               Call_disconnect]) as (H & _ & _ & Hinit).
  rewrite H; [exact Hinit |].
  repeat constructor; discriminate.
Defined.

Lemma isSupportedNetwork_tracks_chainId_witness :
  let w := {| ethereum := Some ok_provider |} in
  tracks_chain
    (state (run [Emit_chainChanged (Some "0x2a"); Call_disconnect] (constructor w))).
Proof.
  cbv zeta.
  destruct (isSupportedNetwork_tracks_chainId {| ethereum := Some ok_provider |}
              [Emit_chainChanged (Some "0x2a"); Call_disconnect]) as (_ & Hc & H).
  apply H. apply (Hc (Some "0x1")).
Defined.

(** * Further properties of the service *)

(** ** The chain fields along a trace *)

Lemma handleChainChanged_name_follows (c : option string) (s : WalletState) :
  name_follows_chain (_handleChainChanged c s).
Proof.
  unfold name_follows_chain, _handleChainChanged; simpl. split; [| reflexivity].
  intros H. apply or_null_Some in H as [_ H]. by apply H.
Qed.

Lemma writes_name_follows (s s' : WalletState) :
  writes s s' → name_follows_chain s → name_follows_chain s'.
Proof.
  intros [ | | | | ] H; try exact H; apply handleChainChanged_name_follows.
Qed.

Lemma reachable_name_follows (w0 : Window) (ops : list Op) :
  name_follows_chain (state (run ops (constructor w0))).
Proof.
  apply (run_invariant name_follows_chain); [apply writes_name_follows |].
  rewrite constructor_state.
  destruct (ethereum w0) as [eth|]; [| split; [discriminate | reflexivity]].
  cbv zeta.
  destruct (or_null (provider_chainId eth)),
    (or_null (selectedAddress eth));
    first [ apply (handleChainChanged_name_follows (provider_chainId eth))
          | split; [discriminate | reflexivity] ].
Qed.

Lemma reachable_tracks_or_unread (w0 : Window) (ops : list Op) :
  tracks_chain (state (run ops (constructor w0))) ∨
  chain_unread (state (run ops (constructor w0))).
Proof.
  apply (run_invariant (λ s, tracks_chain s ∨ chain_unread s)).
  - apply writes_tracks_or_unread.
  - rewrite constructor_state.
    destruct (ethereum w0) as [eth|]; [| right; by repeat split].
    cbv zeta.
    destruct (or_null (provider_chainId eth)),
      (or_null (selectedAddress eth));
      first [ left; apply (handleChainChanged_tracks (provider_chainId eth))
            | right; by repeat split ].
Qed.

(** X1: at every reachable state, the initial one included, networkName
    is determined by chainId.  Either both are null, or chainId is a
    non-empty string and networkName is its CHAIN_NAME_MAP entry when it
    is a key of the table, the member the table inherits from
    Object.prototype when it names one (a function or object, not a
    string), and "Chain <id>" otherwise.  chainId is never the empty
    string and networkName never the empty string. *)
Theorem networkName_follows_chainId (w0 : Window) (ops : list Op) :
  let s := state (run ops (constructor w0)) in
  ((chainId s = None ∧ networkName s = None) ∨
   (∃ c, chainId s = Some c ∧ c ≠ "" ∧
      ((∃ n, CHAIN_NAME_MAP !! c = Some n ∧
             networkName s = Some (NameString n)) ∨
       (CHAIN_NAME_MAP !! c = None ∧ c ∈ Object_prototype ∧
          networkName s = Some (NameInherited c)) ∨
       (CHAIN_NAME_MAP !! c = None ∧ (c ∉ Object_prototype) ∧
          networkName s = Some (NameString ("Chain " +:+ c)))))) ∧
  chainId s ≠ Some "" ∧
  networkName s ≠ Some (NameString "").
Proof.
  cbv zeta. destruct (reachable_name_follows w0 ops) as [Hc Hn].
  set (s := state (run ops (constructor w0))) in *.
  destruct (chainId s) as [c|] eqn:E.
  - assert (c ≠ "") as Hne by congruence.
    rewrite (chain_name_cases c Hne) in Hn.
    destruct (CHAIN_NAME_MAP !! c) as [n|] eqn:En.
    + split; [right; exists c; eauto 10 |]. split; [exact Hc |].
      rewrite Hn. apply CHAIN_NAME_MAP_truthy, truthy_str_true in En. congruence.
    + case_bool_decide as Hp.
      * split; [right; exists c; eauto 10 |]. split; [exact Hc |].
        rewrite Hn. discriminate.
      * split; [right; exists c; eauto 10 |]. split; [exact Hc |].
        rewrite Hn. discriminate.
  - rewrite Hn. split; [by left |]. split; [exact Hc | discriminate].
Qed.

(** X2: a state that reports a supported network always shows a name
    from the table, never a synthesized one: whenever chainId is set and
    isSupportedNetwork is true, chainId is a member of
    SUPPORTED_CHAIN_IDS and networkName is its CHAIN_NAME_MAP entry. *)
Theorem supported_chain_has_table_name (w0 : Window) (ops : list Op) (c : string) :
  let s := state (run ops (constructor w0)) in
  chainId s = Some c →
  isSupportedNetwork s = true →
  c ∈ SUPPORTED_CHAIN_IDS ∧
  ∃ n, CHAIN_NAME_MAP !! c = Some n ∧ networkName s = Some (NameString n).
Proof.
  cbv zeta. intros Hc Hs.
  destruct (reachable_name_follows w0 ops) as [Hne Hn].
  assert (c ∈ SUPPORTED_CHAIN_IDS) as Hin.
  { destruct (reachable_tracks_or_unread w0 ops) as [Ht | [Hu _]].
    - apply Ht in Hs as (c' & Hc' & Hin). congruence.
    - congruence. }
  split; [exact Hin |].
  rewrite Hn, Hc, chain_name_cases by congruence.
  repeat (apply elem_of_cons in Hin as [-> | Hin]; [eexists; split; reflexivity |]).
  by apply elem_of_nil in Hin.
Qed.

(** ** How the update routines compose *)

(** X3: the update routines overwrite and are independent of each
    other.  A chain update erases the effect of the chain update before
    it, an account update that of the account update before it (so
    feeding a value twice is the same as feeding it once), and an account
    update and a chain update give the same state in either order. *)
Theorem updates_overwrite_and_commute (s : WalletState) :
  (∀ c1 c2, _handleChainChanged c2 (_handleChainChanged c1 s) =
            _handleChainChanged c2 s) ∧
  (∀ a1 a2, _handleAccountsChanged a2 (_handleAccountsChanged a1 s) =
            _handleAccountsChanged a2 s) ∧
  (∀ a c, _handleAccountsChanged a (_handleChainChanged c s) =
          _handleChainChanged c (_handleAccountsChanged a s)).
Proof. repeat split. Qed.

(** ** Construction and the event subscriptions *)

Lemma run_listeners (ops : list Op) (σ : World) :
  listeners (run ops σ) = listeners σ.
Proof.
  revert σ. induction ops as [|op ops IH]; intros σ; [reflexivity |].
  simpl. rewrite IH. apply perform_writes.
Qed.

Lemma constructor_world (w : Window) :
  requests (constructor w) = [] ∧
  console (constructor w) = [] ∧
  listeners (constructor w) =
    match ethereum w with
    | Some _ => [accountsChanged; chainChanged]
    | None => []
    end.
Proof.
  unfold constructor, _init. destruct (ethereum w) as [eth|]; [| by repeat split].
  destruct (or_null (provider_chainId eth)),
    (or_null (selectedAddress eth)); by repeat split.
Qed.

(** X4: construction never contacts the provider and logs nothing.
    Without a provider it leaves the five fields at their initial values
    and attaches no listener.  With a provider it sets
    isMetaMaskInstalled, attaches both listeners, takes address from
    selectedAddress unless that is missing or empty, and runs the
    chain-update routine on the provider's chainId; when that chainId is
    missing or empty the routine is skipped, so chainId and networkName
    stay null and isSupportedNetwork stays true. *)
Theorem constructor_probe (w : Window) :
  let σ := constructor w in
  requests σ = [] ∧
  console σ = [] ∧
  (ethereum w = None → state σ = fresh ∧ listeners σ = []) ∧
  (∀ eth, ethereum w = Some eth →
     isMetaMaskInstalled (state σ) = true ∧
     listeners σ = [accountsChanged; chainChanged] ∧
     address (state σ) = or_null (selectedAddress eth) ∧
     (or_null (provider_chainId eth) = None →
        chainId (state σ) = None ∧ networkName (state σ) = None ∧
        isSupportedNetwork (state σ) = true) ∧
     (∀ c, or_null (provider_chainId eth) = Some c →
        chainId (state σ) = Some c ∧
        networkName (state σ) = chain_name (Some c) ∧
        isSupportedNetwork (state σ) = bool_decide (c ∈ SUPPORTED_CHAIN_IDS))).
Proof.
  cbv zeta. destruct (constructor_world w) as (Hr & Hc & Hl).
  split; [exact Hr |]. split; [exact Hc |]. split.
  - intros Hw. rewrite Hl, constructor_state, Hw. by split.
  - intros eth Hw. rewrite Hl, constructor_state, Hw. cbv zeta.
    split; [| split; [reflexivity |]; split; [| split]].
    + destruct (or_null (provider_chainId eth)),
        (or_null (selectedAddress eth)); reflexivity.
    + destruct (or_null (provider_chainId eth)),
        (or_null (selectedAddress eth)); reflexivity.
    + intros ->. destruct (or_null (selectedAddress eth)); by repeat split.
    + intros c E. rewrite E. apply or_null_Some in E as [E Hne].
      apply truthy_str_true in Hne. rewrite E.
      destruct (or_null (selectedAddress eth));
        unfold _handleChainChanged, chain_name, chain_supported, includes;
        simpl; rewrite !Hne; by repeat split.
Qed.

(** X5: a service constructed while no provider was present never
    reacts to provider events, whatever happens later, a successful
    connect included: no operation attaches a listener, so every
    account-change and chain-change event leaves the world as it is. *)
Theorem constructed_without_provider_ignores_events (ops : list Op)
    (accounts : option (list string)) (c : option string) :
  let σ := run ops (constructor {| ethereum := None |}) in
  listeners σ = [] ∧
  perform (Emit_accountsChanged accounts) σ = σ ∧
  perform (Emit_chainChanged c) σ = σ.
Proof.
  cbv zeta.
  assert (listeners (run ops (constructor {| ethereum := None |})) = []) as Hl
    by (by rewrite run_listeners).
  split; [exact Hl |].
  simpl. unfold deliver. rewrite Hl. split; reflexivity.
Qed.

(** X6: a service constructed with a provider keeps both listeners for
    good; disconnect in particular detaches nothing.  After any
    operations followed by a disconnect, an account-change event whose
    first entry is a non-empty string sets address to that entry again,
    and a chain-change event carrying a non-empty identifier sets
    chainId to it. *)
Theorem events_still_heard_after_disconnect (eth : Ethereum) (ops : list Op)
    (a : string) (rest : list string) (c : string) :
  a ≠ "" → c ≠ "" →
  let σ := perform Call_disconnect (run ops (constructor {| ethereum := Some eth |})) in
  address (state σ) = None ∧
  address (state (perform (Emit_accountsChanged (Some (a :: rest))) σ)) = Some a ∧
  chainId (state (perform (Emit_chainChanged (Some c)) σ)) = Some c.
Proof.
  intros Ha Hc. cbv zeta.
  set (σ0 := run ops (constructor {| ethereum := Some eth |})).
  assert (listeners (perform Call_disconnect σ0) = [accountsChanged; chainChanged])
    as Hl.
  { rewrite (proj2 (perform_writes Call_disconnect σ0)). unfold σ0.
    rewrite run_listeners. apply (constructor_world {| ethereum := Some eth |}). }
  split; [reflexivity |].
  apply truthy_str_true in Ha. apply truthy_str_true in Hc.
  unfold perform at 1 3. unfold deliver. rewrite Hl.
  rewrite !bool_decide_eq_true_2 by (repeat constructor).
  split; simpl.
  - unfold accounts_address; simpl. by rewrite Ha.
  - by rewrite Hc.
Qed.

(** ** connect *)

Lemma meanwhile_snoc (ms : list Meanwhile) (m : Meanwhile) (σ : World) :
  meanwhile (ms ++ [m]) σ = perform (meanwhile_op m) (meanwhile ms σ).
Proof. unfold meanwhile, run. by rewrite map_app, fold_left_app. Qed.

(** Events and disconnect touch neither the request log, nor the
    console, nor the listeners, nor isMetaMaskInstalled. *)
Lemma meanwhile_frame (ms : list Meanwhile) (σ : World) :
  requests (meanwhile ms σ) = requests σ ∧
  console (meanwhile ms σ) = console σ ∧
  listeners (meanwhile ms σ) = listeners σ ∧
  isMetaMaskInstalled (state (meanwhile ms σ)) = isMetaMaskInstalled (state σ).
Proof.
  revert σ. induction ms as [|m ms IH]; intros σ; [by repeat split |].
  change (meanwhile (m :: ms) σ) with (meanwhile ms (perform (meanwhile_op m) σ)).
  destruct (IH (perform (meanwhile_op m) σ)) as (-> & -> & -> & ->).
  destruct m; simpl; unfold deliver; try case_bool_decide; by repeat split.
Qed.

Lemma meanwhile_chain_only (ms : list Meanwhile) (σ : World) :
  (∀ m, m ∈ ms → ∃ c, m = Fires_chainChanged c) →
  address (state (meanwhile ms σ)) = address (state σ).
Proof.
  revert σ. induction ms as [|m ms IH]; intros σ Hall; [reflexivity |].
  change (meanwhile (m :: ms) σ) with (meanwhile ms (perform (meanwhile_op m) σ)).
  rewrite IH by (intros m' Hm'; apply Hall; by right).
  destruct (Hall m) as [c ->]; [by left |].
  simpl. unfold deliver. by case_bool_decide.
Qed.

(** What [connect_during] does once a provider is there, one case per
    way its two requests settle. *)
Lemma connect_during_present (w : Window) (eth : Ethereum)
    (ms1 ms2 : list Meanwhile) (σ : World) :
  ethereum w = Some eth →
  let σ1 := meanwhile ms1 (sent eth_requestAccounts σ) in
  connect_during w ms1 ms2 σ =
  match requestAccounts eth with
  | Rejected err => (Threw err, snd (console_error err σ1))
  | Resolved accounts =>
      let σ2 := meanwhile ms2
                  (sent eth_chainId
                     (with_state (_handleAccountsChanged accounts) σ1)) in
      match requestChainId eth with
      | Rejected err => (Threw err, snd (console_error err σ2))
      | Resolved chainId =>
          let σ3 := with_state (_handleChainChanged chainId) σ2 in
          (Returned (address (state σ3)), σ3)
      end
  end.
Proof.
  intros H. unfold connect_during. rewrite H. cbv zeta.
  unfold try_catch, mbind, Action_bind, request_during, next, getValue,
    console_error, throw.
  destruct (requestAccounts eth) as [accounts|err]; [| reflexivity].
  destruct (requestChainId eth) as [chainId|err]; reflexivity.
Qed.

Lemma connect_during_nil (w : Window) (σ : World) :
  connect w σ = connect_during w [] [] σ.
Proof.
  destruct (ethereum w) as [eth|] eqn:Hw.
  - by rewrite (connect_present w eth σ Hw), (connect_during_present w eth [] [] σ Hw).
  - unfold connect, connect_during. by rewrite Hw.
Qed.

(** X7: when both requests resolve, connect sends exactly the accounts
    request and then the chain request, logs nothing, does not write
    isMetaMaskInstalled, leaves the chain fields as the chain-update
    routine derives them from the returned identifier, and returns the
    address held when the chain request has resolved.  If nothing but
    chain-change events arrives while the chain request is pending, that
    address is what the account-update routine made of the returned list
    (null for a null or empty list).  If an account-change event is the
    last thing to arrive during that wait and a listener is attached, it
    is the event's address; if a disconnect is the last thing, it is
    null.  This holds whatever events and disconnects happen while the two
    requests are pending. *)
Theorem connect_resolved (w : Window) (eth : Ethereum) (σ : World)
    (accounts : option (list string)) (c : option string)
    (ms1 ms2 : list Meanwhile) :
  ethereum w = Some eth →
  requestAccounts eth = Resolved accounts →
  requestChainId eth = Resolved c →
  let r := connect_during w ms1 ms2 σ in
  fst r = Returned (address (state (snd r))) ∧
  requests (snd r) = requests σ ++ [eth_requestAccounts; eth_chainId] ∧
  console (snd r) = console σ ∧
  isMetaMaskInstalled (state (snd r)) = isMetaMaskInstalled (state σ) ∧
  chainId (state (snd r)) = or_null c ∧
  isSupportedNetwork (state (snd r)) = chain_supported (or_null c) ∧
  networkName (state (snd r)) = chain_name (or_null c) ∧
  ((∀ m, m ∈ ms2 → ∃ c', m = Fires_chainChanged c') →
     fst r = Returned (accounts_address accounts)) ∧
  (accounts = None ∨ accounts = Some [] →
     (∀ m, m ∈ ms2 → ∃ c', m = Fires_chainChanged c') →
     fst r = Returned None) ∧
  (∀ ms a, ms2 = ms ++ [Fires_accountsChanged a] →
     accountsChanged ∈ listeners σ →
     fst r = Returned (accounts_address a)) ∧
  (∀ ms, ms2 = ms ++ [Clicks_disconnect] → fst r = Returned None) ∧
  connect w σ = connect_during w [] [] σ.
Proof.
  intros Hw Ha Hc. cbv zeta.
  rewrite (connect_during_present w eth ms1 ms2 σ Hw), Ha, Hc. cbv zeta.
  set (σ1 := meanwhile ms1 (sent eth_requestAccounts σ)).
  set (σ1' := sent eth_chainId (with_state (_handleAccountsChanged accounts) σ1)).
  destruct (meanwhile_frame ms1 (sent eth_requestAccounts σ)) as (Hr1 & Hc1 & Hl1 & Hi1).
  destruct (meanwhile_frame ms2 σ1') as (Hr2 & Hc2 & Hl2 & Hi2).
  fold σ1 in Hr1, Hc1, Hl1, Hi1.
  assert (∀ (ms : list Meanwhile),
            (∀ m, m ∈ ms → ∃ c', m = Fires_chainChanged c') →
            address (state (meanwhile ms σ1')) = accounts_address accounts) as Hchain.
  { intros ms Hall. by rewrite (meanwhile_chain_only ms σ1' Hall). }
  simpl. repeat split.
  - rewrite Hr2. unfold σ1'. simpl. rewrite Hr1. simpl. by rewrite <- app_assoc.
  - rewrite Hc2. unfold σ1'. simpl. by rewrite Hc1.
  - rewrite Hi2. unfold σ1'. simpl. by rewrite Hi1.
  - intros Hall. by rewrite (Hchain ms2 Hall).
  - intros Hacc Hall. rewrite (Hchain ms2 Hall). by destruct Hacc as [-> | ->].
  - intros ms a -> Hlisten. rewrite meanwhile_snoc. simpl. unfold deliver.
    destruct (meanwhile_frame ms σ1') as (_ & _ & Hl & _).
    rewrite Hl. unfold σ1'. simpl. rewrite Hl1. simpl.
    by rewrite bool_decide_eq_true_2.
  - intros ms ->. by rewrite meanwhile_snoc.
Qed.

(** X8: connect re-raises what makes it fail, unchanged, whatever events
    and disconnects happen while its requests are pending.  With no
    provider it raises "MetaMask not installed", having sent and logged
    nothing.  With a provider, a rejected accounts request makes it raise
    the provider's rejection after that single request, the chain request
    never being sent; a rejected chain request makes it raise that
    rejection after the two requests; either rejection is logged once to
    the console.  connect raises in no other way. *)
Theorem connect_rejection_propagates (w : Window) (σ : World)
    (ms1 ms2 : list Meanwhile) :
  let r := connect_during w ms1 ms2 σ in
  (ethereum w = None →
     r = (Threw (ThrowObj (Error "MetaMask not installed")),
          with_state (set_isMetaMaskInstalled false) σ)) ∧
  (∀ eth err, ethereum w = Some eth →
     requestAccounts eth = Rejected err →
     fst r = Threw err ∧
     requests (snd r) = requests σ ++ [eth_requestAccounts] ∧
     console (snd r) = console σ ++ [err]) ∧
  (∀ eth accounts err, ethereum w = Some eth →
     requestAccounts eth = Resolved accounts →
     requestChainId eth = Rejected err →
     fst r = Threw err ∧
     requests (snd r) = requests σ ++ [eth_requestAccounts; eth_chainId] ∧
     console (snd r) = console σ ++ [err]) ∧
  (∀ err, fst r = Threw err →
     (ethereum w = None ∧ err = ThrowObj (Error "MetaMask not installed")) ∨
     (∃ eth, ethereum w = Some eth ∧
        (requestAccounts eth = Rejected err ∨
         ∃ accounts, requestAccounts eth = Resolved accounts ∧
                     requestChainId eth = Rejected err))) ∧
  connect w σ = connect_during w [] [] σ.
Proof.
  cbv zeta. split; [| split; [| split; [| split]]].
  - intros Hw. unfold connect_during. by rewrite Hw.
  - intros eth err Hw Ha.
    rewrite (connect_during_present w eth ms1 ms2 σ Hw), Ha. cbv zeta. simpl.
    destruct (meanwhile_frame ms1 (sent eth_requestAccounts σ)) as (-> & -> & _).
    by repeat split.
  - intros eth accounts err Hw Ha Hc.
    rewrite (connect_during_present w eth ms1 ms2 σ Hw), Ha, Hc. cbv zeta. simpl.
    set (σ1 := meanwhile ms1 (sent eth_requestAccounts σ)).
    destruct (meanwhile_frame ms2
                (sent eth_chainId (with_state (_handleAccountsChanged accounts) σ1)))
      as (-> & -> & _).
    destruct (meanwhile_frame ms1 (sent eth_requestAccounts σ)) as (Hr1 & Hc1 & _).
    fold σ1 in Hr1, Hc1. simpl. rewrite Hr1, Hc1. simpl.
    repeat split. by rewrite <- app_assoc.
  - intros err H. destruct (ethereum w) as [eth|] eqn:Hw.
    + right. exists eth. split; [reflexivity |].
      rewrite (connect_during_present w eth ms1 ms2 σ Hw) in H. cbv zeta in H.
      destruct (requestAccounts eth) as [accounts|e].
      * right. exists accounts. split; [reflexivity |].
        destruct (requestChainId eth) as [c|e]; [discriminate |].
        by injection H as ->.
      * left. by injection H as ->.
    + left. unfold connect_during in H. rewrite Hw in H.
      split; [reflexivity |]. by injection H as <-.
  - apply connect_during_nil.
Qed.

(** ** switchToSupportedNetwork on the service's own tables *)

Lemma selectTarget_supported (current : option string) :
  selectTarget SUPPORTED_CHAIN_IDS current =
  Some (if bool_decide (current = Some "0x1") then "0x5" else "0x1").
Proof.
  destruct (decide (current = Some "0x1")) as [-> | H]; [reflexivity |].
  unfold selectTarget, SUPPORTED_CHAIN_IDS, differs; simpl.
  rewrite (bool_decide_eq_false_2 (Some "0x1" = current)) by congruence.
  rewrite (bool_decide_eq_false_2 (current = Some "0x1")) by exact H.
  reflexivity.
Qed.

(** Every supported chain has connection parameters, filed under its own
    identifier and named as in the display table. *)
Lemma CHAIN_PARAMS_supported (t : string) :
  t ∈ SUPPORTED_CHAIN_IDS →
  ∃ p, CHAIN_PARAMS !! t = Some p ∧ cp_chainId p = t ∧
       CHAIN_NAME_MAP !! t = Some (chainName p).
Proof.
  intros Hin.
  repeat (apply elem_of_cons in Hin as [-> | Hin];
          [eexists; split; [reflexivity | split; reflexivity] |]).
  by apply elem_of_nil in Hin.
Qed.

(** The requests and the log of a switch, over any tables. *)
Lemma switchNetwork_log (registry : list string)
    (params : gmap string ChainParams) (w : Window) (σ : World) :
  let σ' := snd (switchNetwork registry params w σ) in
  let sw := wallet_switchEthereumChain (selectTarget registry (chainId (state σ))) in
  console σ' = console σ ∧
  match ethereum w with
  | None => requests σ' = requests σ
  | Some _ =>
      requests σ' = requests σ ++ [sw] ∨
      ∃ p, params_of params (selectTarget registry (chainId (state σ))) = Some p ∧
           requests σ' = requests σ ++ [sw; wallet_addEthereumChain p]
  end.
Proof.
  cbv zeta. destruct w as [[eth|]]; [| split; reflexivity].
  rewrite switchNetwork_present. cbv zeta. simpl.
  destruct (switchEthereumChain eth _) as [[]|err]; [split; [| left]; reflexivity |].
  destruct (strict_eq _ _); [| split; [| left]; reflexivity].
  destruct (params_of _ _) as [p|] eqn:Hp; [| split; [| left]; reflexivity].
  unfold request.
  destruct (addEthereumChain eth p); simpl; (split; [reflexivity |]);
    right; exists p; by rewrite <- app_assoc.
Qed.

(** X9: on the service's registry the target of a switch is always
    another supported chain than the current one, also when the wallet
    already is on a supported chain: it is "0x5" when chainId is "0x1"
    and "0x1" for every other chainId, null included.  Sepolia and
    Polygon are never targeted. *)
Theorem switch_targets_another_supported_chain (current : option string) :
  ∃ t, selectTarget SUPPORTED_CHAIN_IDS current = Some t ∧
       t ∈ SUPPORTED_CHAIN_IDS ∧
       Some t ≠ current ∧
       (current = Some "0x1" → t = "0x5") ∧
       (current ≠ Some "0x1" → t = "0x1").
Proof.
  rewrite selectTarget_supported. eexists. split; [reflexivity |].
  case_bool_decide as H.
  - subst current. repeat split; [| discriminate | done].
    apply list_elem_of_In. simpl. auto.
  - repeat split; [| congruence | done].
    apply list_elem_of_In. simpl. auto.
Qed.

(** X10: on the service's own tables an unrecognized-chain rejection is
    always answered by an add-chain request: whenever the switch request
    is rejected with deciding code 4902, CHAIN_PARAMS has an entry for
    the selected target, that entry carries the target as its chainId and
    the display name of the target as its chainName, and the result of
    the action is the settlement of the add-chain request with it.  The
    re-raise for a missing entry cannot happen. *)
Theorem unrecognized_chain_is_added (eth : Ethereum) (σ : World) (err : Thrown) :
  let w := {| ethereum := Some eth |} in
  let target := selectTarget SUPPORTED_CHAIN_IDS (chainId (state σ)) in
  let σ1 := sent (wallet_switchEthereumChain target) σ in
  switchEthereumChain eth target = Rejected err →
  errCode err = VNum 4902 →
  ∃ t p, target = Some t ∧
         CHAIN_PARAMS !! t = Some p ∧
         cp_chainId p = t ∧
         CHAIN_NAME_MAP !! t = Some (chainName p) ∧
         switchToSupportedNetwork w σ =
           request (wallet_addEthereumChain p) (addEthereumChain eth p) σ1 ∧
         requests (snd (switchToSupportedNetwork w σ)) =
           requests σ ++ [wallet_switchEthereumChain target; wallet_addEthereumChain p].
Proof.
  cbv zeta. intros Hrej Hcode.
  unfold switchToSupportedNetwork. rewrite switchNetwork_present. cbv zeta.
  rewrite Hrej. unfold strict_eq. rewrite bool_decide_eq_true_2 by exact Hcode.
  rewrite selectTarget_supported.
  set (t := if bool_decide (chainId (state σ) = Some "0x1") then "0x5" else "0x1").
  assert (t ∈ SUPPORTED_CHAIN_IDS) as Hin.
  { unfold t. apply list_elem_of_In. case_bool_decide; simpl; auto. }
  destruct (CHAIN_PARAMS_supported t Hin) as (p & Hp & Hid & Hname).
  exists t, p. unfold params_of; simpl. rewrite Hp.
  repeat split; try done.
  unfold request. destruct (addEthereumChain eth p); simpl; by rewrite <- app_assoc.
Qed.

(** X11: what a switch sends and logs, over any tables.  It never
    writes to the console and never changes the five fields.  Without a
    provider it raises "MetaMask not installed" and sends nothing; unlike
    connect it leaves isMetaMaskInstalled alone.  With a provider it
    sends the switch request and at most one add-chain request after it,
    never a second switch; when the switch request resolves it returns
    after that single request. *)
Theorem switch_requests (registry : list string)
    (params : gmap string ChainParams) (w : Window) (σ : World) :
  let r := switchNetwork registry params w σ in
  let target := selectTarget registry (chainId (state σ)) in
  let sw := wallet_switchEthereumChain target in
  console (snd r) = console σ ∧
  state (snd r) = state σ ∧
  (ethereum w = None →
     r = (Threw (ThrowObj (Error "MetaMask not installed")), σ)) ∧
  (∀ eth, ethereum w = Some eth →
     (requests (snd r) = requests σ ++ [sw] ∨
      ∃ p, params_of params target = Some p ∧
           requests (snd r) = requests σ ++ [sw; wallet_addEthereumChain p]) ∧
     (switchEthereumChain eth target = Resolved () → r = (Returned (), sent sw σ))).
Proof.
  cbv zeta.
  pose proof (switchNetwork_log registry params w σ) as [Hc Hr]. cbv zeta in Hr.
  split; [exact Hc |]. split; [apply switchNetwork_state |]. split.
  - intros Hw. unfold switchNetwork. by rewrite Hw.
  - intros eth Hw. rewrite Hw in Hr. split; [exact Hr |].
    intros Hok. destruct w as [e]. simpl in Hw. subst e.
    rewrite switchNetwork_present. cbv zeta. by rewrite Hok.
Qed.

(** ** The request log along a trace *)

Lemma perform_requests (op : Op) (σ : World) :
  ∃ rs, requests (perform op σ) = requests σ ++ rs ∧
        (length rs ≤ if contacts_provider op then 2 else 0)%nat.
Proof.
  destruct op as [a|c|w|w|]; simpl.
  - exists []. unfold deliver. case_bool_decide; by rewrite app_nil_r.
  - exists []. unfold deliver. case_bool_decide; by rewrite app_nil_r.
  - destruct (ethereum w) as [eth|] eqn:Hw.
    + rewrite (connect_present w eth σ Hw). cbv zeta.
      destruct (requestAccounts eth) as [a|e];
        [| exists [eth_requestAccounts]; simpl; split; [done | lia]].
      exists [eth_requestAccounts; eth_chainId].
      destruct (requestChainId eth) as [c|e]; simpl;
        (split; [by rewrite <- app_assoc | lia]).
    + rewrite (connect_absent w σ Hw). exists []. simpl.
      split; [by rewrite app_nil_r | lia].
  - pose proof (switchNetwork_log SUPPORTED_CHAIN_IDS CHAIN_PARAMS w σ) as [_ Hr].
    cbv zeta in Hr. unfold switchToSupportedNetwork.
    destruct (ethereum w) as [eth|].
    + destruct Hr as [-> | (p & _ & ->)]; eexists; (split; [reflexivity | simpl; lia]).
    + rewrite Hr. exists []. split; [by rewrite app_nil_r | simpl; lia].
  - exists []. split; [by rewrite app_nil_r | simpl; lia].
Qed.

(** X12: the request log only grows, and only connect and
    switchToSupportedNetwork make it grow.  Over any sequence of
    operations the earlier requests stay in place, and at most two
    requests are added per call of connect or switchToSupportedNetwork;
    provider events and disconnect add none. *)
Theorem request_log_bound (ops : list Op) (σ : World) :
  ∃ rs, requests (run ops σ) = requests σ ++ rs ∧
        (length rs ≤ 2 * length (List.filter contacts_provider ops))%nat.
Proof.
  revert σ. induction ops as [|op ops IH]; intros σ.
  - exists []. split; [by rewrite app_nil_r | simpl; lia].
  - destruct (perform_requests op σ) as (r1 & H1 & L1).
    destruct (IH (perform op σ)) as (r2 & H2 & L2).
    exists (r1 ++ r2). split.
    + simpl. rewrite H2, H1. by rewrite app_assoc.
    + rewrite length_app. simpl.
      destruct (contacts_provider op); simpl; lia.
Qed.

(** ** The navigation bar's click handlers *)

(** X13: the connect button never raises.  Whatever the window holds and
    however the provider settles, onClickConnect returns, and it leaves
    the world exactly as connect left it: a rejection is swallowed, but
    the writes connect made before failing stay. *)
Theorem onClickConnect_never_throws (w : Window) (σ : World) :
  onClickConnect w σ = (Returned (), snd (connect w σ)).
Proof.
  unfold onClickConnect, try_catch, mbind, Action_bind, mret, Action_ret.
  destruct (connect w σ) as [[a|err] σ']; reflexivity.
Qed.

(** X14: the switch button never raises either.  onClickSwitchNetwork
    returns, leaves the five fields as they were, sends what
    switchToSupportedNetwork sends, and logs the error to the console
    exactly when the switch failed. *)
Theorem onClickSwitchNetwork_never_throws (w : Window) (σ : World) :
  fst (onClickSwitchNetwork w σ) = Returned () ∧
  state (snd (onClickSwitchNetwork w σ)) = state σ ∧
  requests (snd (onClickSwitchNetwork w σ)) =
    requests (snd (switchToSupportedNetwork w σ)) ∧
  console (snd (onClickSwitchNetwork w σ)) =
    match fst (switchToSupportedNetwork w σ) with
    | Returned _ => console σ
    | Threw err => console σ ++ [err]
    end.
Proof.
  pose proof (switchNetwork_state SUPPORTED_CHAIN_IDS CHAIN_PARAMS w σ) as [Hs _].
  pose proof (switchNetwork_log SUPPORTED_CHAIN_IDS CHAIN_PARAMS w σ) as [Hc _].
  cbv zeta in Hc. fold (switchToSupportedNetwork w σ) in Hs, Hc.
  unfold onClickSwitchNetwork, try_catch, console_error.
  destruct (switchToSupportedNetwork w σ) as [[[]|err] σ']; simpl in *;
    by rewrite ?Hs, ?Hc.
Qed.

(** ** Which rejections count as an unrecognized chain *)

(** X15: the deciding code of a thrown value is 4902 exactly when the
    value is an object whose top-level code is the number 4902, or whose
    top-level code is falsy (absent, null, 0, empty) and whose data is an
    object with code 4902.  A thrown primitive, the string "4902" as
    code, or a 4902 under data beside any truthy top-level code is not an
    unrecognized chain. *)
Theorem errCode_4902_iff (err : Thrown) :
  errCode err = VNum 4902 ↔
  ∃ e, err = ThrowObj e ∧
       (code e = VNum 4902 ∨
        (truthy (code e) = false ∧ data e = DataObj (VNum 4902))).
Proof.
  split.
  - destruct err as [v|e]; simpl.
    + destruct (truthy v) eqn:Hv; [discriminate |]. intros ->. discriminate.
    + intros H. exists e. split; [reflexivity |].
      destruct (truthy (code e)) eqn:Hc; [by left | right].
      split; [reflexivity |].
      destruct (data e) as [v|c]; simpl in H; [| by subst c].
      destruct (truthy v) eqn:Hv; [discriminate |]. subst v. discriminate.
  - intros (e & -> & [Hc | [Hc Hd]]); simpl.
    + by rewrite Hc.
    + by rewrite Hc, Hd.
Qed.

(** ** isMetaMaskInstalled never recovers *)

(** X16: after construction nothing sets isMetaMaskInstalled to true.
    Once it is false it stays false over every sequence of operations, a
    connect that finds a provider and succeeds included; a service
    constructed before the provider was injected reports it as not
    installed for good. *)
Theorem isMetaMaskInstalled_stays_false (ops : list Op) (σ : World) :
  isMetaMaskInstalled (state σ) = false →
  isMetaMaskInstalled (state (run ops σ)) = false.
Proof.
  intros H. rewrite run_isMetaMaskInstalled; [exact H |].
  apply Forall_forall. intros op _ _. exact H.
Qed.

(** * The further properties at concrete inputs *)

Lemma supported_chain_has_table_name_witness :
  "0x89" ∈ SUPPORTED_CHAIN_IDS ∧
  ∃ n, CHAIN_NAME_MAP !! "0x89" = Some n ∧
       networkName
         (state (run [Emit_chainChanged (Some "0x89")]
                   (constructor {| ethereum := Some ok_provider |})))
       = Some (NameString n).
Proof.
  apply (supported_chain_has_table_name {| ethereum := Some ok_provider |}
           [Emit_chainChanged (Some "0x89")] "0x89");
    vm_compute; reflexivity.
Defined.

Lemma constructor_probe_witness :
  address (state (constructor {| ethereum := Some ok_provider |})) = Some "0xABC" ∧
  chainId (state (constructor {| ethereum := Some ok_provider |})) = Some "0x1" ∧
  isSupportedNetwork (state (constructor {| ethereum := Some chain_rejecting_provider |}))
    = true.
Proof.
  destruct (constructor_probe {| ethereum := Some ok_provider |})
    as (_ & _ & _ & H).
  destruct (H ok_provider eq_refl) as (_ & _ & Ha & _ & Hc).
  destruct (Hc "0x1" eq_refl) as (Hc1 & _).
  destruct (constructor_probe {| ethereum := Some chain_rejecting_provider |})
    as (_ & _ & _ & H').
  destruct (H' chain_rejecting_provider eq_refl) as (_ & _ & _ & Hn & _).
  destruct (Hn eq_refl) as (_ & _ & Hs).
  split; [exact Ha | split; [exact Hc1 | exact Hs]].
Defined.

Lemma events_still_heard_after_disconnect_witness :
  let σ := perform Call_disconnect
             (run [Call_connect {| ethereum := Some ok_provider |}]
                (constructor {| ethereum := Some ok_provider |})) in
  address (state σ) = None ∧
  address (state (perform (Emit_accountsChanged (Some ["0x123"])) σ)) = Some "0x123" ∧
  chainId (state (perform (Emit_chainChanged (Some "0x5")) σ)) = Some "0x5".
Proof.
  apply (events_still_heard_after_disconnect ok_provider
           [Call_connect {| ethereum := Some ok_provider |}] "0x123" [] "0x5");
    discriminate.
Defined.

Lemma connect_resolved_witness :
  let w := {| ethereum := Some ok_provider |} in
  fst (connect w (constructor w)) = Returned (Some "0xDEF") ∧
  requests (snd (connect w (constructor w))) = [eth_requestAccounts; eth_chainId] ∧
  fst (connect_during w [] [Fires_accountsChanged (Some ["0xEVE"])] (constructor w))
    = Returned (Some "0xEVE").
Proof.
  cbv zeta.
  destruct (connect_resolved {| ethereum := Some ok_provider |} ok_provider
              (constructor {| ethereum := Some ok_provider |})
              (Some ["0xDEF"; "0x123"]) (Some "0x89") [] [] eq_refl eq_refl eq_refl)
    as (_ & Hq & _ & _ & _ & _ & _ & Hr & _ & _ & _ & Hnil).
  destruct (connect_resolved {| ethereum := Some ok_provider |} ok_provider
              (constructor {| ethereum := Some ok_provider |})
              (Some ["0xDEF"; "0x123"]) (Some "0x89")
              [] [Fires_accountsChanged (Some ["0xEVE"])] eq_refl eq_refl eq_refl)
    as (_ & _ & _ & _ & _ & _ & _ & _ & _ & He & _).
  rewrite Hnil. split; [| split; [exact Hq |]].
  - apply Hr. intros m Hm. by apply elem_of_nil in Hm.
  - apply (He [] (Some ["0xEVE"]) eq_refl). vm_compute. by left.
Defined.

Lemma connect_rejection_propagates_witness :
  let w := {| ethereum := Some chain_rejecting_provider |} in
  let err := ThrowObj (Error "chain request failed") in
  fst (connect w (constructor w)) = Threw err ∧
  console (snd (connect w (constructor w))) = [err] ∧
  requests (snd (connect w (constructor w))) = [eth_requestAccounts; eth_chainId] ∧
  fst (connect {| ethereum := None |} (constructor w)) =
    Threw (ThrowObj (Error "MetaMask not installed")).
Proof.
  cbv zeta.
  set (w := {| ethereum := Some chain_rejecting_provider |}).
  destruct (connect_rejection_propagates w (constructor w) [] [])
    as (_ & _ & H & _ & Hnil).
  destruct (H chain_rejecting_provider (Some ["0xDEF"])
              (ThrowObj (Error "chain request failed")) eq_refl eq_refl eq_refl)
    as (He & Hr & Hc).
  destruct (connect_rejection_propagates {| ethereum := None |} (constructor w) [] [])
    as (Hnone & _ & _ & _ & Hnil').
  rewrite Hnil, Hnil', (Hnone eq_refl).
  split; [exact He | split; [exact Hc | split; [exact Hr | reflexivity]]].
Defined.

Lemma switch_targets_another_supported_chain_witness :
  selectTarget SUPPORTED_CHAIN_IDS (Some "0x89") = Some "0x1".
Proof.
  destruct (switch_targets_another_supported_chain (Some "0x89"))
    as (t & Ht & _ & _ & _ & H).
  rewrite Ht, H; [reflexivity | discriminate].
Defined.

Lemma unrecognized_chain_is_added_witness :
  let w := {| ethereum := Some unknown_chain_provider |} in
  requests (snd (switchToSupportedNetwork w (constructor w))) =
    [wallet_switchEthereumChain (Some "0x5"); wallet_addEthereumChain params_goerli].
Proof.
  cbv zeta.
  destruct (unrecognized_chain_is_added unknown_chain_provider
              (constructor {| ethereum := Some unknown_chain_provider |})
              unrecognized_chain eq_refl eq_refl)
    as (t & p & Ht & Hp & _ & _ & _ & Hr).
  rewrite Hr. injection Ht as <-. injection Hp as <-. reflexivity.
Defined.

Lemma switch_requests_witness :
  let w := {| ethereum := Some ok_provider |} in
  switchToSupportedNetwork w (constructor w) =
    (Returned (), sent (wallet_switchEthereumChain (Some "0x5")) (constructor w)) ∧
  fst (switchToSupportedNetwork {| ethereum := None |} (constructor w)) =
    Threw (ThrowObj (Error "MetaMask not installed")).
Proof.
  cbv zeta. split.
  - destruct (switch_requests SUPPORTED_CHAIN_IDS CHAIN_PARAMS
                {| ethereum := Some ok_provider |}
                (constructor {| ethereum := Some ok_provider |}))
      as (_ & _ & _ & H).
    destruct (H ok_provider eq_refl) as [_ Hok].
    exact (Hok eq_refl).
  - destruct (switch_requests SUPPORTED_CHAIN_IDS CHAIN_PARAMS
                {| ethereum := None |}
                (constructor {| ethereum := Some ok_provider |}))
      as (_ & _ & H & _).
    unfold switchToSupportedNetwork. by rewrite (H eq_refl).
Defined.

Lemma isMetaMaskInstalled_stays_false_witness :
  isMetaMaskInstalled
    (state (run [Call_connect {| ethereum := Some ok_provider |}]
              (constructor {| ethereum := None |}))) = false.
Proof.
  apply (isMetaMaskInstalled_stays_false
           [Call_connect {| ethereum := Some ok_provider |}]
           (constructor {| ethereum := None |})).
  reflexivity.
Defined.
